(** * The GLiNER2 NER service: lazy model handle and HTTP endpoints

    A shallow embedding of [services/gliner/model.py] and
    [services/gliner/main.py], and of the front matter stripping of
    [scripts/build-docs.py].

    - Python objects that the code mutates in place (the [GLiNERModel]
      instance, the module global [_global_model]) are threaded explicitly:
      every method takes the handle and returns the handle it leaves behind.
    - Everything outside the repository (the [gliner2] package, pydantic's
      field coercions) is an input: a [World] record says, for one call, what
      the import, [GLiNER.from_pretrained] and [predict_entities] do.
    - The calls made on the outside world are recorded as a list of [event]s,
      so that "the model was constructed once" is a statement on the trace.
    - Logging calls are left out: they never touch the handle and never raise.
    - A Python [str] is a [string]; its characters stand for code points, so
      [String.length] plays the role of [len]. *)

From Stdlib Require Import String List ZArith Lia Bool DecimalString.
From Stdlib Require Import Floats.PrimFloat.
From stdpp Require Import base gmap strings.
Import ListNotations.

Open Scope string_scope.

(** ** Python values, exceptions and results *)

Inductive PyVal : Type :=
| VNone
| VBool (b : bool)
| VInt (z : Z)
| VFloat (f : float)
| VStr (s : string).

(** A Python [dict] with [str] keys. *)
Abbreviation PyDict := (gmap string PyVal).

(** The exception classes the code distinguishes.  [ImportError] includes its
    subclasses; [OtherError] is any other subclass of [Exception]. *)
Inductive exn_class : Type :=
| ImportError
| RuntimeError
| KeyError
| AttributeError
| ValidationError
| OtherError.

(** An exception: its class and the text [str(e)] gives. *)
Record exn : Type := Exn { exn_cls : exn_class; exn_str : string }.

Definition is_ImportError (e : exn) : bool :=
  match exn_cls e with ImportError => true | _ => false end.

Inductive result (A : Type) : Type :=
| Return (a : A)
| Raise (e : exn).
Arguments Return {A} a.
Arguments Raise {A} e.

Definition bind {A B : Type} (c : result A) (k : A -> result B) : result B :=
  match c with
  | Return a => k a
  | Raise e => Raise e
  end.

Notation "'let*' x ':=' c 'in' k" := (bind c (fun x => k))
  (at level 10, x name, c at level 100, k at level 200).

(** A [for] loop (or comprehension) that applies a fallible body to each
    element in order and stops at the first exception. *)
Fixpoint for_each {A B : Type} (body : A -> result B) (xs : list A)
  : result (list B) :=
  match xs with
  | [] => Return []
  | x :: rest =>
      let* y := body x in
      let* ys := for_each body rest in
      Return (y :: ys)
  end.

(** [d[key]]: [KeyError(key)] when the key is missing; [str(KeyError('k'))]
    is the key's repr. *)
Definition getitem (d : PyDict) (key : string) : result PyVal :=
  match d !! key with
  | Some v => Return v
  | None => Raise (Exn KeyError ("'" ++ key ++ "'"))
  end.

(** ** The outside world *)

(** The object [GLiNER.from_pretrained] returns. *)
Record GLiNER : Type := { pretrained_name : string; object_id : nat }.

Record World : Type := {
  (** [from gliner2 import GLiNER] *)
  import_gliner2 : result unit;
  (** [GLiNER.from_pretrained(name)] *)
  from_pretrained : string -> result GLiNER;
  (** [model.predict_entities(text, labels, threshold=threshold)] *)
  predict_entities :
    GLiNER -> string -> list string -> float -> result (list PyDict);
  (** pydantic's coercion of a value to a [str], [int] and [float] field *)
  as_str : PyVal -> option string;
  as_int : PyVal -> option Z;
  as_float : PyVal -> option float;
  (** [str(e)] of the [ValidationError] pydantic raises for given keywords *)
  validation_error_str : PyDict -> string
}.

Inductive event : Type :=
| EImport (r : result unit)
| EFromPretrained (name : string) (r : result GLiNER)
| EPredict (m : GLiNER) (text : string) (labels : list string)
    (threshold : float) (r : result (list PyDict)).

(** A method call: what it returns or raises, the handle afterwards, and the
    calls it made on the world. *)
Definition call (Self A : Type) : Type := (result A * Self * list event)%type.

(** ** model.py *)

Module model.

Record GLiNERModel : Type := {
  model_name : string;
  _model : option GLiNER;
  _loaded : bool
}.

Definition default_model_name : string := "fastino/gliner2-large-v1".

Definition __init__ (model_name : string) : GLiNERModel :=
  {| model_name := model_name; _model := None; _loaded := false |}.

(** The two [except] clauses of [load]: [ImportError] is tried first. *)
Definition load_except (e : exn) : exn :=
  if is_ImportError e
  then Exn RuntimeError "gliner2 package not installed. Run: pip install gliner2"
  else Exn RuntimeError ("Failed to load GLiNER2 model: " ++ exn_str e).

Definition load (w : World) (self : GLiNERModel) : call GLiNERModel unit :=
  if _loaded self then (Return tt, self, [])
  else
    match import_gliner2 w with
    | Raise e => (Raise (load_except e), self, [EImport (Raise e)])
    | Return u =>
        let name := model_name self in
        match from_pretrained w name with
        | Raise e =>
            (Raise (load_except e), self,
             [EImport (Return u); EFromPretrained name (Raise e)])
        | Return m =>
            (Return tt,
             {| model_name := name; _model := Some m; _loaded := true |},
             [EImport (Return u); EFromPretrained name (Return m)])
        end
    end.

(** The body of the conversion loop: one dict literal, keys read in order. *)
Definition convert_entity (entity : PyDict) : result PyDict :=
  let* text := getitem entity "text" in
  let* label := getitem entity "label" in
  let* start := getitem entity "start" in
  let* end_ := getitem entity "end" in
  let* score := getitem entity "score" in
  Return ({[ "text" := text; "label" := label; "start" := start;
             "end" := end_; "score" := score ]} : PyDict).

Definition NoneType_has_no_predict_entities : exn :=
  Exn AttributeError "'NoneType' object has no attribute 'predict_entities'".

(** The [try] block of [extract_entities]; its handler logs and re-raises. *)
Definition extract_try (w : World) (self : GLiNERModel)
    (text : string) (entity_types : list string) (threshold : float)
  : result (list PyDict) * list event :=
  match _model self with
  | None => (Raise NoneType_has_no_predict_entities, [])
  | Some m =>
      let r := predict_entities w m text entity_types threshold in
      (let* entities := r in for_each convert_entity entities,
       [EPredict m text entity_types threshold r])
  end.

Definition extract_entities (w : World) (self : GLiNERModel)
    (text : string) (entity_types : list string) (threshold : float)
  : call GLiNERModel (list PyDict) :=
  let '(loaded, self1, ev1) :=
    if negb (_loaded self) then load w self else (Return tt, self, []) in
  match loaded with
  | Raise e => (Raise e, self1, ev1)
  | Return _ =>
      let '(r, ev2) := extract_try w self1 text entity_types threshold in
      (r, self1, (ev1 ++ ev2)%list)
  end.

Definition is_loaded (self : GLiNERModel) : call GLiNERModel bool :=
  (Return (_loaded self), self, []).

Definition model_info (self : GLiNERModel) : call GLiNERModel PyDict :=
  (Return ({[ "model_name" := VStr (model_name self);
              "loaded" := VBool (_loaded self);
              "model_type" := VStr "GLiNER2";
              "parameters" := VStr "340M";
              "license" := VStr "Apache 2.0" ]} : PyDict),
   self, []).

(** The module global [_global_model] is an [option GLiNERModel].  The handle
    is one shared object: a caller that got it from [get_model] and ran a
    method on it leaves the mutated handle behind in the global, which the
    endpoints below write out as storing the handle back. *)
Definition get_model (_global_model : option GLiNERModel)
  : GLiNERModel * option GLiNERModel :=
  match _global_model with
  | None => let m := __init__ default_model_name in (m, Some m)
  | Some m => (m, Some m)
  end.

(** *** Sequences of method calls on one handle *)

Inductive op : Type :=
| OpLoad
| OpExtract (text : string) (entity_types : list string) (threshold : float)
| OpIsLoaded
| OpModelInfo.

(** One method call in a given world: the handle afterwards and the calls made
    on the world; what the call returned is dropped. *)
Definition step (w : World) (o : op) (self : GLiNERModel)
  : GLiNERModel * list event :=
  match o with
  | OpLoad => let '(_, s, ev) := load w self in (s, ev)
  | OpExtract text entity_types threshold =>
      let '(_, s, ev) := extract_entities w self text entity_types threshold in
      (s, ev)
  | OpIsLoaded => let '(_, s, ev) := is_loaded self in (s, ev)
  | OpModelInfo => let '(_, s, ev) := model_info self in (s, ev)
  end.

Fixpoint run (steps : list (World * op)) (self : GLiNERModel)
  : GLiNERModel * list event :=
  match steps with
  | [] => (self, [])
  | (w, o) :: rest =>
      let '(s1, ev1) := step w o self in
      let '(s2, ev2) := run rest s1 in
      (s2, (ev1 ++ ev2)%list)
  end.

(** The handles reachable from a freshly constructed one, with the trace of
    calls on the world that led there. *)
Inductive reachable (name : string) : GLiNERModel -> list event -> Prop :=
| reachable_init : reachable name (__init__ name) []
| reachable_step (self self' : GLiNERModel) (tr ev : list event)
    (w : World) (o : op) :
    reachable name self tr ->
    step w o self = (self', ev) ->
    reachable name self' (tr ++ ev)%list.

(** Calls of [GLiNER.from_pretrained] that returned a model. *)
Definition is_construction (e : event) : bool :=
  match e with
  | EFromPretrained _ (Return _) => true
  | _ => false
  end.

(** Calls of [GLiNER.from_pretrained], returned or not. *)
Definition is_attempt (e : event) : bool :=
  match e with
  | EFromPretrained _ _ => true
  | _ => false
  end.

Definition constructions (tr : list event) : nat :=
  length (List.filter is_construction tr).

Definition attempts (tr : list event) : nat :=
  length (List.filter is_attempt tr).

(** In world [w], initialising the model called [name] goes through. *)
Definition init_succeeds (w : World) (name : string) : Prop :=
  (exists u, import_gliner2 w = Return u) /\
  (exists m, from_pretrained w name = Return m).

End model.

(** ** main.py *)

Module main.

(** *** Request and response models *)

Record ExtractRequest : Type := {
  text : string;
  entity_types : list string;
  threshold : float
}.

(** The body of a POST /extract request as it arrives: [threshold] may be
    left out. *)
Record ExtractBody : Type := {
  body_text : string;
  body_entity_types : list string;
  body_threshold : option float
}.

(** The [Field] constraints of [ExtractRequest]. *)
Definition text_ok (text : string) : bool :=
  (1 <=? String.length text)%nat.                       (* min_length=1 *)

Definition entity_types_ok (entity_types : list string) : bool :=
  (1 <=? length entity_types)%nat.                      (* min_items=1 *)

Definition threshold_ok (threshold : float) : bool :=
  PrimFloat.leb 0.0 threshold                           (* ge=0.0 *)
  && PrimFloat.leb threshold 1.0.                       (* le=1.0 *)

#[warnings="-inexact-float"]
Definition threshold_default : float := 0.3%float.

(** Building an [ExtractRequest] from a body: every field is checked and the
    names of all the fields that fail are reported together; a missing
    [threshold] takes the default, which is not validated. *)
Definition ExtractRequest_validate (b : ExtractBody)
  : ExtractRequest + list string :=
  let errors :=
    ((if text_ok (body_text b) then [] else ["text"]) ++
     (if entity_types_ok (body_entity_types b) then [] else ["entity_types"]) ++
     (match body_threshold b with
      | None => []
      | Some t => if threshold_ok t then [] else ["threshold"]
      end))%list in
  match errors with
  | [] =>
      inl {| text := body_text b;
             entity_types := body_entity_types b;
             threshold := match body_threshold b with
                          | Some t => t
                          | None => threshold_default
                          end |}
  | _ :: _ => inr errors
  end.

Record Entity : Type := {
  entity_text : string;
  label : string;
  start : Z;
  end_ : Z;
  score : float
}.

Record ExtractResponse : Type := {
  entities : list Entity;
  entity_count : Z;
  text_length : Z
}.

Record HealthResponse : Type := {
  status : string;
  model_loaded : bool;
  health_model_name : string
}.

(** A keyword argument read as a field of the given kind. *)
Definition field {A : Type} (kw : PyDict) (key : string)
    (coerce : PyVal -> option A) : option A :=
  match kw !! key with
  | Some v => coerce v
  | None => None
  end.

(** [Entity] built from keyword arguments: every field is required and
    coerced; anything else raises pydantic's [ValidationError]. *)
Definition Entity_init (w : World) (kw : PyDict) : result Entity :=
  match field kw "text" (as_str w), field kw "label" (as_str w),
        field kw "start" (as_int w), field kw "end" (as_int w),
        field kw "score" (as_float w) with
  | Some t, Some l, Some s, Some e, Some sc =>
      Return {| entity_text := t; label := l; start := s; end_ := e;
                score := sc |}
  | _, _, _, _, _ =>
      Raise (Exn ValidationError (validation_error_str w kw))
  end.

(** What serialising an [Entity] of the response gives. *)
Definition Entity_dump (e : Entity) : PyDict :=
  {[ "text" := VStr (entity_text e); "label" := VStr (label e);
     "start" := VInt (start e); "end" := VInt (end_ e);
     "score" := VFloat (score e) ]}.

(** *** Endpoints *)

(** What an endpoint answers: the value it returns (status 200), the
    [HTTPException] it raises, or, when the body does not validate against
    the declared request model, the framework's 422 answer, which the endpoint
    function never sees. *)
Inductive response (A : Type) : Type :=
| OK (body : A)
| HTTPException (status_code : Z) (detail : string)
| RequestValidationError (errors : list string).
Arguments OK {A} body.
Arguments HTTPException {A} status_code detail.
Arguments RequestValidationError {A} errors.

Definition http_status {A : Type} (r : response A) : Z :=
  match r with
  | OK _ => 200
  | HTTPException status_code _ => status_code
  | RequestValidationError _ => 422
  end.

(** An endpoint call: the answer, [_global_model] afterwards, and the calls
    made on the world. *)
Definition endpoint (A : Type) : Type :=
  (response A * option model.GLiNERModel * list event)%type.

(** The warmup of [lifespan]: a failing [load] is logged and swallowed. *)
Definition lifespan_startup (w : World) (g : option model.GLiNERModel)
  : option model.GLiNERModel * list event :=
  let '(m, _) := model.get_model g in
  let '(_, m', ev) := model.load w m in
  (Some m', ev).

Definition health_check (g : option model.GLiNERModel)
  : endpoint HealthResponse :=
  let '(m, _) := model.get_model g in
  let '(r, m', ev) := model.is_loaded m in
  (match r with
   | Return b =>
       OK {| status := "healthy"; model_loaded := b;
             health_model_name := model.model_name m' |}
   | Raise _ => HTTPException 500 "Internal Server Error"
   end, Some m', ev).

(** The body of the [try] of the endpoint once the model has answered. *)
Definition build_response (w : World) (request : ExtractRequest)
    (entities : list PyDict) : result ExtractResponse :=
  let* es := for_each (Entity_init w) entities in
  Return {| entities := es;
            entity_count := Z.of_nat (length entities);
            text_length := Z.of_nat (String.length (text request)) |}.

Definition extract_entities (w : World) (g : option model.GLiNERModel)
    (request : ExtractRequest) : endpoint ExtractResponse :=
  let '(m, _) := model.get_model g in
  let '(r, m', ev) :=
    model.extract_entities w m (text request) (entity_types request)
      (threshold request) in
  (match (let* entities := r in build_response w request entities) with
   | Return body => OK body
   | Raise e => HTTPException 500 ("Extraction failed: " ++ exn_str e)
   end, Some m', ev).

(** The threshold of the body is refused and is not a finite number (NaN or
    an infinity, which a JSON number such as 1e400 becomes). *)
Definition threshold_unwritable (b : ExtractBody) : bool :=
  match body_threshold b with
  | Some t => negb (threshold_ok t) && negb (PrimFloat.is_finite t)
  | None => false
  end.

(** The answer to a body that does not validate.  The 422 answer lists every
    error together with the input that was refused, written as JSON; a float
    that is not finite cannot be written, the answer fails to be built and
    the framework answers 500 instead. *)
Definition refusal (b : ExtractBody) (errors : list string)
  : response ExtractResponse :=
  if threshold_unwritable b
  then HTTPException 500 "Internal Server Error"
  else RequestValidationError errors.

(** POST /extract: the body is validated first; the endpoint function runs
    only on a valid request. *)
Definition post_extract (w : World) (g : option model.GLiNERModel)
    (b : ExtractBody) : endpoint ExtractResponse :=
  match ExtractRequest_validate b with
  | inr errors => (refusal b errors, g, [])
  | inl request => extract_entities w g request
  end.

(** *** The other endpoints *)

Record ModelInfoResponse : Type := {
  info_model_name : string;
  loaded : bool;
  model_type : string;
  parameters : string;
  license : string
}.

(** A world that also says how pydantic coerces a value to a [bool] field. *)
Record ServiceWorld : Type := {
  world :> World;
  as_bool : PyVal -> option bool
}.

(** [ModelInfoResponse] built from keyword arguments. *)
Definition ModelInfoResponse_init (w : ServiceWorld) (kw : PyDict)
  : result ModelInfoResponse :=
  match field kw "model_name" (as_str w), field kw "loaded" (as_bool w),
        field kw "model_type" (as_str w), field kw "parameters" (as_str w),
        field kw "license" (as_str w) with
  | Some n, Some l, Some t, Some p, Some lic =>
      Return {| info_model_name := n; loaded := l; model_type := t;
                parameters := p; license := lic |}
  | _, _, _, _, _ =>
      Raise (Exn ValidationError (validation_error_str w kw))
  end.

(** GET /model_info.  An exception that escapes an endpoint function is
    answered 500 by the framework. *)
Definition model_info (w : ServiceWorld) (g : option model.GLiNERModel)
  : endpoint ModelInfoResponse :=
  let '(m, _) := model.get_model g in
  let '(r, m', ev) := model.model_info m in
  (match (let* info := r in ModelInfoResponse_init w info) with
   | Return body => OK body
   | Raise _ => HTTPException 500 "Internal Server Error"
   end, Some m', ev).

Record RootResponse : Type := {
  service : string;
  version : string;
  root_model : string;
  endpoints : gmap string string
}.

(** GET /: a constant; [get_model] is not called. *)
Definition root (g : option model.GLiNERModel) : endpoint RootResponse :=
  (OK {| service := "GLiNER NER Service";
         version := "1.0.0";
         root_model := "fastino/gliner2-large-v1";
         endpoints := {[ "health" := "/health";
                         "model_info" := "/model_info";
                         "extract" := "/extract (POST)" ]} |},
   g, []).

(** *** The application: routes, and a process serving requests in turn *)

Inductive request : Type :=
| GET_health
| GET_model_info
| POST_extract (b : ExtractBody)
| GET_root.

(** One request in a given world: the status answered, [_global_model]
    afterwards, and the calls made on the world. *)
Definition serve (w : ServiceWorld) (r : request)
    (g : option model.GLiNERModel)
  : Z * option model.GLiNERModel * list event :=
  match r with
  | GET_health =>
      let '(a, g', ev) := health_check g in (http_status a, g', ev)
  | GET_model_info =>
      let '(a, g', ev) := model_info w g in (http_status a, g', ev)
  | POST_extract b =>
      let '(a, g', ev) := post_extract w g b in (http_status a, g', ev)
  | GET_root =>
      let '(a, g', ev) := root g in (http_status a, g', ev)
  end.

Fixpoint serve_all (requests : list (ServiceWorld * request))
    (g : option model.GLiNERModel)
  : list Z * option model.GLiNERModel * list event :=
  match requests with
  | [] => ([], g, [])
  | (w, r) :: rest =>
      let '(code, g1, ev1) := serve w r g in
      let '(codes, g2, ev2) := serve_all rest g1 in
      (code :: codes, g2, (ev1 ++ ev2)%list)
  end.

(** The life of a process: the module is imported ([_global_model] is
    [None]), the warmup runs, then the requests are served. *)
Definition app (startup : World) (requests : list (ServiceWorld * request))
  : list Z * option model.GLiNERModel * list event :=
  let '(g0, ev0) := lifespan_startup startup None in
  let '(codes, g, ev) := serve_all requests g0 in
  (codes, g, (ev0 ++ ev)%list).

End main.

(** ** scripts/build-docs.py *)

Module build_docs.

(** Here a Python [str] is the list of its code points, since the code looks
    at single characters. *)
Definition str : Type := list N.

(** The code points of a literal written in ASCII. *)
Definition literal (s : string) : str :=
  map Ascii.N_of_ascii (list_ascii_of_string s).

(** [s.startswith(prefix)] *)
Fixpoint startswith (s prefix : str) : bool :=
  match prefix, s with
  | [], _ => true
  | _ :: _, [] => false
  | p :: prefix', c :: s' => (c =? p)%N && startswith s' prefix'
  end.

(** The text before the leftmost occurrence of [sep] in [s] and the text
    after it, if there is one. *)
Fixpoint cut (sep s : str) : option (str * str) :=
  if startswith s sep then Some ([], skipn (length sep) s)
  else
    match s with
    | [] => None
    | c :: rest =>
        match cut sep rest with
        | Some (before, after) => Some (c :: before, after)
        | None => None
        end
    end.

(** [s.split(sep, maxsplit)] for a separator that is not empty: the
    occurrences are taken from the left, do not overlap, and at most
    [maxsplit] of them are used. *)
Fixpoint split_on (sep : str) (maxsplit : nat) (s : str) : list str :=
  match maxsplit with
  | O => [s]
  | S n =>
      match cut sep s with
      | None => [s]
      | Some (before, after) => before :: split_on sep n after
      end
  end.

(** [s.split(sep, maxsplit)]; an empty separator is a [ValueError]. *)
Definition split (s sep : str) (maxsplit : nat) : result (list str) :=
  match sep with
  | [] => Raise (Exn OtherError "empty separator")
  | _ :: _ => Return (split_on sep maxsplit s)
  end.

(** [xs[i]] for an index that is not negative. *)
Definition list_getitem {A : Type} (xs : list A) (i : nat) : result A :=
  match nth_error xs i with
  | Some x => Return x
  | None => Raise (Exn OtherError "list index out of range")
  end.

(** [c.isspace()]: the code points Python counts as whitespace. *)
Definition isspace (c : N) : bool :=
  ((9 <=? c) && (c <=? 13) || (28 <=? c) && (c <=? 32)
   || (c =? 133) || (c =? 160) || (c =? 5760)
   || (8192 <=? c) && (c <=? 8202) || (c =? 8232) || (c =? 8233)
   || (c =? 8239) || (c =? 8287) || (c =? 12288))%N.

Fixpoint lstrip (s : str) : str :=
  match s with
  | [] => []
  | c :: rest => if isspace c then lstrip rest else s
  end.

Definition rstrip (s : str) : str := rev (lstrip (rev s)).

(** [s.strip()] *)
Definition strip (s : str) : str := rstrip (lstrip s).

(** "---" *)
Definition marker : str := [45; 45; 45]%N.

(** The conditional expression, read left to right: the test on the prefix,
    then the length of the split, then the third piece, stripped. *)
Definition strip_yaml_frontmatter (content : str) : result str :=
  if startswith content marker then
    let* parts := split content marker 2 in
    if (3 <=? length parts)%nat then
      let* parts := split content marker 2 in
      let* third := list_getitem parts 2 in
      Return (strip third)
    else Return content
  else Return content.

End build_docs.

(** ** Vocabulary of the statements *)

Import model.

(** What holds of a handle created for [name] after the calls in [tr]. *)
Definition handle_inv (name : string) (self : GLiNERModel) (tr : list event)
  : Prop :=
  model_name self = name /\
  if _loaded self
  then (exists m, _model self = Some m /\
                  In (EFromPretrained name (Return m)) tr) /\
       constructions tr = 1
  else _model self = None /\ constructions tr = 0.

(** The three ways a call of [load] can go. *)
Inductive load_outcome (w : World) (self : GLiNERModel)
  : call GLiNERModel unit -> Prop :=
| load_already :
    _loaded self = true ->
    load_outcome w self (Return tt, self, [])
| load_failed (cause : exn) (ev : list event) :
    _loaded self = false ->
    import_gliner2 w = Raise cause \/
      ((exists u, import_gliner2 w = Return u) /\
       from_pretrained w (model_name self) = Raise cause) ->
    constructions ev = 0 ->
    attempts ev <= 1 ->
    load_outcome w self (Raise (load_except cause), self, ev)
| load_constructed (m : GLiNER) :
    _loaded self = false ->
    import_gliner2 w = Return tt ->
    from_pretrained w (model_name self) = Return m ->
    load_outcome w self
      (Return tt,
       {| model_name := model_name self; _model := Some m; _loaded := true |},
       [EImport (Return tt); EFromPretrained (model_name self) (Return m)]).

(** The answer is a 200. *)
Definition http_ok {A : Type} (r : main.response A) : bool :=
  match r with
  | main.OK _ => true
  | _ => false
  end.

(** [needle] occurs in [hay]. *)
Fixpoint contains (needle hay : string) : bool :=
  String.prefix needle hay ||
  match hay with
  | EmptyString => false
  | String _ rest => contains needle rest
  end.

Definition decimal (n : nat) : string :=
  NilZero.string_of_uint (Nat.to_uint n).

(** A message says something about the request that caused it: it quotes the
    text, or one of the entity types, or the length of the text. *)
Definition mentions_input (message : string) (request : main.ExtractRequest)
  : bool :=
  contains (main.text request) message
  || existsb (fun t => contains t message) (main.entity_types request)
  || contains (decimal (String.length (main.text request))) message.

(** A threshold within [0.0, 1.0]. *)
Definition in_unit_interval (t : float) : Prop :=
  PrimFloat.leb 0.0 t = true /\ PrimFloat.leb t 1.0 = true.

(** The keys of a converted entity. *)
Definition entity_keys : gset string :=
  {[ "text"; "label"; "start"; "end"; "score" ]}.

(** The dictionary [model_info] returns. *)
Definition info_of (self : GLiNERModel) : PyDict :=
  match fst (fst (model_info self)) with
  | Return info => info
  | Raise _ => empty
  end.

(** *** Worlds and inputs used in the examples *)

Module fixtures.

Definition strict_str (v : PyVal) : option string :=
  match v with VStr s => Some s | _ => None end.

Definition strict_int (v : PyVal) : option Z :=
  match v with VInt z => Some z | _ => None end.

Definition strict_float (v : PyVal) : option float :=
  match v with VFloat f => Some f | _ => None end.

Definition acme : PyDict :=
  {[ "text" := VStr "Acme Corp"; "label" := VStr "org"; "start" := VInt 0;
     "end" := VInt 9; "score" := VFloat 0.5%float ]}.

(** Everything works: the model loads and finds one organisation. *)
Definition world_ok : World :=
  {| import_gliner2 := Return tt;
     from_pretrained := fun name =>
       Return {| pretrained_name := name; object_id := 0 |};
     predict_entities := fun _ _ _ _ => Return [acme];
     as_str := strict_str;
     as_int := strict_int;
     as_float := strict_float;
     validation_error_str := fun _ => "1 validation error for Entity" |}.

(** The [gliner2] package is not installed. *)
Definition world_missing : World :=
  {| import_gliner2 := Raise (Exn ImportError "No module named 'gliner2'");
     from_pretrained := from_pretrained world_ok;
     predict_entities := predict_entities world_ok;
     as_str := strict_str;
     as_int := strict_int;
     as_float := strict_float;
     validation_error_str := validation_error_str world_ok |}.

(** The weights cannot be fetched. *)
Definition world_offline : World :=
  {| import_gliner2 := Return tt;
     from_pretrained := fun _ => Raise (Exn OtherError "connection refused");
     predict_entities := predict_entities world_ok;
     as_str := strict_str;
     as_int := strict_int;
     as_float := strict_float;
     validation_error_str := validation_error_str world_ok |}.

(** The model loads but fails when asked to predict. *)
Definition world_broken : World :=
  {| import_gliner2 := Return tt;
     from_pretrained := from_pretrained world_ok;
     predict_entities := fun _ _ _ _ => Raise (Exn OtherError "boom");
     as_str := strict_str;
     as_int := strict_int;
     as_float := strict_float;
     validation_error_str := validation_error_str world_ok |}.

Definition the_model : GLiNER :=
  {| pretrained_name := default_model_name; object_id := 0 |}.

Definition fresh : GLiNERModel := __init__ default_model_name.

Definition ready : GLiNERModel :=
  {| model_name := default_model_name; _model := Some the_model;
     _loaded := true |}.

Definition acme_request : main.ExtractRequest :=
  {| main.text := "Acme Corp"; main.entity_types := ["org"];
     main.threshold := main.threshold_default |}.

Definition acme_body : main.ExtractBody :=
  {| main.body_text := "Acme Corp"; main.body_entity_types := ["org"];
     main.body_threshold := None |}.

End fixtures.

(** What holds of [_global_model] after the calls in [tr]: no handle and no
    call yet, or a handle for the default model. *)
Definition process_inv (g : option GLiNERModel) (tr : list event) : Prop :=
  match g with
  | None => tr = []
  | Some m => handle_inv default_model_name m tr
  end.

(** The call is a prediction asked of model [m]. *)
Definition is_predict_on (m : GLiNER) (e : event) : Prop :=
  match e with
  | EPredict m' _ _ _ _ => m' = m
  | _ => False
  end.

(** The arguments of a prediction respect the constraints of the request
    model; any other call is left alone. *)
Definition predict_args_ok (e : event) : Prop :=
  match e with
  | EPredict _ text labels threshold _ =>
      text <> "" /\ labels <> [] /\ in_unit_interval threshold
  | _ => True
  end.

(** In world [w], initialising the model called [name] fails with [cause]:
    the import raises it, or the import goes through and
    [GLiNER.from_pretrained] raises it. *)
Definition init_fails (w : World) (name : string) (cause : exn) : Prop :=
  import_gliner2 w = Raise cause \/
  ((exists u, import_gliner2 w = Return u) /\
   from_pretrained w name = Raise cause).



(** The arguments of a prediction are those of the body: its text, its
    entity types, and its threshold or, when it gives none, 0.3. *)
#[warnings="-inexact-float"]
Definition predict_from_body (b : main.ExtractBody) (e : event) : Prop :=
  match e with
  | EPredict _ text labels threshold _ =>
      text = main.body_text b /\ labels = main.body_entity_types b /\
      threshold = match main.body_threshold b with
                  | Some t => t
                  | None => 0.3%float
                  end
  | _ => True
  end.

(** A prediction was asked by one of the bodies posted, with the arguments
    of that body; any other call is left alone. *)
Definition asked_by (requests : list (main.ServiceWorld * main.request))
    (e : event) : Prop :=
  match e with
  | EPredict _ _ _ _ _ =>
      exists w b, In (w, main.POST_extract b) requests /\
                  predict_from_body b e
  | _ => True
  end.

(** [sep] occurs somewhere in [s]. *)
Definition occurs (sep s : build_docs.str) : Prop :=
  exists before after, s = (before ++ sep ++ after)%list.

(** The text has an opening marker, a front matter and a closing marker. *)
Definition has_frontmatter (content : build_docs.str) : Prop :=
  exists fm body,
    content
    = (build_docs.marker ++ fm ++ build_docs.marker ++ body)%list.

(** The call is a prediction. *)
Definition is_prediction (e : event) : bool :=
  match e with
  | EPredict _ _ _ _ _ => true
  | _ => false
  end.

(** The keys [convert_entity] reads, in the order it reads them. *)
Definition entity_key_order : list string :=
  ["text"; "label"; "start"; "end"; "score"].

Module service_fixtures.

Definition strict_bool (v : PyVal) : option bool :=
  match v with VBool b => Some b | _ => None end.

Definition serving (w : World) : main.ServiceWorld :=
  {| main.world := w; main.as_bool := strict_bool |}.

(** An entity with one more key than needed, and one without a score. *)
Definition acme_with_id : PyDict := <[ "id" := VInt 7 ]> fixtures.acme.

Definition acme_without_score : PyDict := delete "score" fixtures.acme.

(** The model answers with an entity that has no score. *)
Definition world_scoreless : World :=
  {| import_gliner2 := Return tt;
     from_pretrained := from_pretrained fixtures.world_ok;
     predict_entities := fun _ _ _ _ =>
       Return [fixtures.acme; acme_without_score];
     as_str := fixtures.strict_str;
     as_int := fixtures.strict_int;
     as_float := fixtures.strict_float;
     validation_error_str := validation_error_str fixtures.world_ok |}.

(** The package is there, but loading the weights needs [torch], which is
    missing. *)
Definition world_no_torch : World :=
  {| import_gliner2 := Return tt;
     from_pretrained := fun _ =>
       Raise (Exn ImportError "No module named 'torch'");
     predict_entities := predict_entities fixtures.world_ok;
     as_str := fixtures.strict_str;
     as_int := fixtures.strict_int;
     as_float := fixtures.strict_float;
     validation_error_str := validation_error_str fixtures.world_ok |}.


End service_fixtures.

Open Scope list_scope.

(** ** Counting calls in a trace *)

Lemma constructions_app (a b : list event) :
  constructions (a ++ b) = constructions a + constructions b.
Proof.
  unfold constructions. rewrite List.filter_app, List.length_app. reflexivity.
Qed.

Lemma attempts_app (a b : list event) :
  attempts (a ++ b) = attempts a + attempts b.
Proof.
  unfold attempts. rewrite List.filter_app, List.length_app. reflexivity.
Qed.

Lemma constructions_le_attempts (tr : list event) :
  constructions tr <= attempts tr.
Proof.
  induction tr as [|e tr IH]; [reflexivity|].
  change (e :: tr) with ([e] ++ tr).
  rewrite constructions_app, attempts_app.
  destruct e as [r|name [m|x]|m t l th r]; cbn; lia.
Qed.

(** ** [load] *)

Lemma load_ready (w : World) (self : GLiNERModel) :
  _loaded self = true -> load w self = (Return tt, self, []).
Proof. intros H. unfold load. rewrite H. reflexivity. Qed.

Lemma load_cases (w : World) (self : GLiNERModel) :
  load_outcome w self (load w self).
Proof.
  unfold load.
  destruct (_loaded self) eqn:Hl; [now constructor|].
  destruct (import_gliner2 w) as [[]|e] eqn:Hi.
  - destruct (from_pretrained w (model_name self)) as [m|e] eqn:Hf.
    + now constructor.
    + apply load_failed; cbn; eauto.
  - apply load_failed; cbn; eauto.
Qed.

(** ** One step, many steps *)

Lemma extract_try_events (w : World) (self : GLiNERModel) (text : string)
    (entity_types : list string) (threshold : float) :
  attempts (snd (extract_try w self text entity_types threshold)) = 0.
Proof. unfold extract_try. destruct (_model self); reflexivity. Qed.

(** What [extract_entities] does to the handle is what its [load] does. *)
Lemma extract_entities_handle (w : World) (self : GLiNERModel)
    (text : string) (entity_types : list string) (threshold : float) :
  exists ev2,
    snd (fst (extract_entities w self text entity_types threshold))
      = snd (fst (load w self)) /\
    snd (extract_entities w self text entity_types threshold)
      = (snd (load w self) ++ ev2)%list /\
    attempts ev2 = 0.
Proof.
  unfold extract_entities.
  destruct (_loaded self) eqn:Hl; cbn [negb].
  - rewrite (load_ready w self Hl).
    destruct (extract_try w self text entity_types threshold) as [r ev2] eqn:Ht.
    exists ev2. cbn. repeat split.
    pose proof (extract_try_events w self text entity_types threshold) as He.
    now rewrite Ht in He.
  - destruct (load w self) as [[[u|e] s1] ev1] eqn:Hload.
    + destruct (extract_try w s1 text entity_types threshold) as [r ev2] eqn:Ht.
      exists ev2. cbn. repeat split.
      pose proof (extract_try_events w s1 text entity_types threshold) as He.
      now rewrite Ht in He.
    + exists []. cbn. rewrite List.app_nil_r. repeat split.
Qed.

(** Every step is, for the handle and for the calls of [from_pretrained],
    either a [load] or nothing at all. *)
Lemma step_as_load (w : World) (o : op) (self : GLiNERModel) :
  (step w o self = (self, [])) \/
  (exists ev2,
      fst (step w o self) = snd (fst (load w self)) /\
      snd (step w o self) = (snd (load w self) ++ ev2)%list /\
      attempts ev2 = 0).
Proof.
  destruct o as [|text entity_types threshold| |]; cbn [step].
  - right. exists []. destruct (load w self) as [[r s] ev]. cbn.
    now rewrite List.app_nil_r.
  - right.
    destruct (extract_entities_handle w self text entity_types threshold)
      as (ev2 & Hs & He & Ha).
    exists ev2.
    destruct (extract_entities w self text entity_types threshold)
      as [[r s] ev]. cbn in *. auto.
  - now left.
  - now left.
Qed.

Lemma step_ready (w : World) (o : op) (self : GLiNERModel) :
  _loaded self = true ->
  exists ev, step w o self = (self, ev) /\ attempts ev = 0.
Proof.
  intros Hl.
  destruct (step_as_load w o self) as [H | (ev2 & Hs & He & Ha)].
  - exists []. auto.
  - rewrite (load_ready w self Hl) in Hs, He. cbn in Hs, He.
    exists ev2. split; [|exact Ha].
    destruct (step w o self) as [s ev]. cbn in *. congruence.
Qed.

(** A step keeps [handle_inv]. *)
Lemma step_inv (name : string) (w : World) (o : op)
    (self self' : GLiNERModel) (tr ev : list event) :
  handle_inv name self tr ->
  step w o self = (self', ev) ->
  handle_inv name self' (tr ++ ev).
Proof.
  intros [Hn Hinv] Hstep.
  destruct (step_as_load w o self) as [H | (ev2 & Hs & He & Ha)].
  - rewrite H in Hstep. injection Hstep as <- <-.
    rewrite List.app_nil_r. now split.
  - rewrite Hstep in Hs, He. cbn in Hs, He. subst self' ev.
    pose proof (constructions_le_attempts ev2) as Hc2.
    pose proof (load_cases w self) as Hload.
    inversion Hload as [Hl Heq | cause ev1 Hl Hc Hk Hat Heq | m Hl Hi Hf Heq];
      cbn [fst snd]; (split; [exact Hn|]); rewrite Hl in Hinv.
    + cbn. destruct Hinv as [(m & Hm & Hin) Hk]. rewrite Hl.
      split; [exists m; split; [exact Hm | apply in_or_app; now left]|].
      rewrite constructions_app. lia.
    + rewrite Hl. destruct Hinv as [Hm Hk0]. split; [exact Hm|].
      rewrite !constructions_app. lia.
    + cbn [_loaded _model]. destruct Hinv as [Hm Hk0]. split.
      * exists m. split; [reflexivity|].
        apply in_or_app. right. apply in_or_app. left. rewrite <- Hn.
        cbn. auto.
      * rewrite !constructions_app. cbn. lia.
Qed.

Lemma init_inv (name : string) : handle_inv name (__init__ name) [].
Proof. split; [reflexivity|]. cbn. auto. Qed.

Lemma run_app (a b : list (World * op)) (self : GLiNERModel) :
  run (a ++ b) self =
  let '(s1, tr1) := run a self in
  let '(s2, tr2) := run b s1 in
  (s2, tr1 ++ tr2).
Proof.
  revert self. induction a as [|[w o] a IH]; intros self; cbn [run app].
  - now destruct (run b self).
  - destruct (step w o self) as [s1 ev1]. rewrite IH.
    destruct (run a s1) as [s2 ev2]. destruct (run b s2) as [s3 ev3].
    now rewrite List.app_assoc.
Qed.

Lemma run_inv (name : string) (steps : list (World * op)) :
  forall (self self' : GLiNERModel) (tr0 tr : list event),
    handle_inv name self tr0 ->
    run steps self = (self', tr) ->
    handle_inv name self' (tr0 ++ tr).
Proof.
  induction steps as [|[w o] rest IH]; intros self self' tr0 tr Hinv Hrun;
    cbn [run] in Hrun.
  - injection Hrun as <- <-. now rewrite List.app_nil_r.
  - destruct (step w o self) as [s1 ev1] eqn:Hstep.
    destruct (run rest s1) as [s2 ev2] eqn:Hrest.
    injection Hrun as <- <-. rewrite List.app_assoc.
    eapply IH; [|exact Hrest]. eapply step_inv; eauto.
Qed.

Lemma run_ready (steps : list (World * op)) (self : GLiNERModel) :
  _loaded self = true ->
  exists tr, run steps self = (self, tr) /\ attempts tr = 0.
Proof.
  intros Hl. induction steps as [|[w o] rest (tr & Hrun & Ha)]; cbn [run].
  - exists []. auto.
  - destruct (step_ready w o self Hl) as (ev & Hstep & Hev).
    rewrite Hstep, Hrun. exists (ev ++ tr). split; [reflexivity|].
    rewrite attempts_app. lia.
Qed.

Lemma reachable_inv (name : string) (self : GLiNERModel) (tr : list event) :
  reachable name self tr -> handle_inv name self tr.
Proof.
  induction 1 as [|self self' tr ev w o _ IH Hstep].
  - apply init_inv.
  - eapply step_inv; eauto.
Qed.

Lemma run_reachable (name : string) (steps : list (World * op)) :
  forall (self self' : GLiNERModel) (tr0 tr : list event),
    reachable name self tr0 ->
    run steps self = (self', tr) ->
    reachable name self' (tr0 ++ tr).
Proof.
  induction steps as [|[w o] rest IH]; intros self self' tr0 tr Hr Hrun;
    cbn [run] in Hrun.
  - injection Hrun as <- <-. now rewrite List.app_nil_r.
  - destruct (step w o self) as [s1 ev1] eqn:Hstep.
    destruct (run rest s1) as [s2 ev2] eqn:Hrest.
    injection Hrun as <- <-. rewrite List.app_assoc.
    eapply IH; [|exact Hrest]. eapply reachable_step; eauto.
Qed.

Lemma reachable_run (name : string) (self : GLiNERModel) (tr : list event) :
  reachable name self tr <->
  exists steps, run steps (__init__ name) = (self, tr).
Proof.
  split.
  - induction 1 as [|self self' tr ev w o _ (steps & Hrun) Hstep].
    + now exists [].
    + exists (steps ++ [(w, o)]). rewrite run_app, Hrun. cbn [run].
      rewrite Hstep. now rewrite List.app_nil_r.
  - intros (steps & Hrun).
    apply (run_reachable name steps (__init__ name) self [] tr);
      [constructor | exact Hrun].
Qed.

(** ** The lazy handle *)

(** C1. Once a handle is ready (reached from a fresh handle by any sequence of
    calls, readiness flag true), [load] returns at once: it returns [None],
    leaves the handle as it is and makes no call on the world.  Whatever calls
    follow, the handle stays the same, [GLiNER.from_pretrained] is not called
    again, and over the whole sequence it returned a model exactly once. *)
Theorem load_constructs_once (name : string)
    (before after : list (World * op))
    (self self' : GLiNERModel) (tr tr' : list event) :
  run before (__init__ name) = (self, tr) ->
  _loaded self = true ->
  run after self = (self', tr') ->
  (forall w, load w self = (Return tt, self, [])) /\
  self' = self /\
  attempts tr' = 0 /\
  constructions (tr ++ tr') = 1.
Proof.
  intros Hbefore Hl Hafter.
  split; [intros w; now apply load_ready|].
  destruct (run_ready after self Hl) as (tr2 & Hrun & Ha).
  rewrite Hrun in Hafter. injection Hafter as <- <-.
  split; [reflexivity|]. split; [exact Ha|].
  pose proof (run_inv name before _ _ [] tr (init_inv name) Hbefore) as [_ Hi].
  cbn [app] in Hi. rewrite Hl in Hi. destruct Hi as [_ Hk].
  pose proof (constructions_le_attempts tr2).
  rewrite constructions_app. lia.
Qed.

Lemma load_constructs_once_witness :
  (forall w, load w fixtures.ready = (Return tt, fixtures.ready, [])) /\
  fixtures.ready = fixtures.ready /\
  attempts
    [EPredict fixtures.the_model "Acme Corp" ["org"] main.threshold_default
       (Raise (Exn OtherError "boom"))] = 0 /\
  constructions
    ([EImport (Raise (Exn ImportError "No module named 'gliner2'"));
      EImport (Return tt);
      EFromPretrained default_model_name (Return fixtures.the_model)] ++
     [EPredict fixtures.the_model "Acme Corp" ["org"] main.threshold_default
        (Raise (Exn OtherError "boom"))]) = 1.
Proof.
  apply (load_constructs_once default_model_name
           [(fixtures.world_missing, OpLoad); (fixtures.world_ok, OpLoad)]
           [(fixtures.world_offline, OpLoad);
            (fixtures.world_broken,
             OpExtract "Acme Corp" ["org"] main.threshold_default);
            (fixtures.world_ok, OpLoad)]);
    reflexivity.
Defined.

(** C2. In every state reachable from a freshly constructed handle, the
    readiness flag is true exactly when the model reference is present and
    was returned by a call of [GLiNER.from_pretrained] that completed without
    raising; when the flag is false the reference is [None]. *)
Theorem loaded_iff_model_present (name : string) (self : GLiNERModel)
    (tr : list event) :
  reachable name self tr ->
  (_loaded self = true <->
   exists m, _model self = Some m /\
             In (EFromPretrained name (Return m)) tr) /\
  (_loaded self = false <-> _model self = None).
Proof.
  intros Hr. destruct (reachable_inv name self tr Hr) as [_ Hinv].
  destruct (_loaded self).
  - destruct Hinv as [(m & Hm & Hin) _]. split; split; try congruence.
    intros _. now exists m.
  - destruct Hinv as [Hm _]. split; split; try congruence.
    intros (m & Hm' & _). congruence.
Qed.

Lemma loaded_iff_model_present_witness :
  (_loaded fixtures.ready = true <->
   exists m, _model fixtures.ready = Some m /\
             In (EFromPretrained default_model_name (Return m))
                ([] ++ [EImport (Return tt);
                        EFromPretrained default_model_name
                          (Return fixtures.the_model)])) /\
  (_loaded fixtures.ready = false <-> _model fixtures.ready = None).
Proof.
  apply (loaded_iff_model_present default_model_name).
  apply (reachable_step default_model_name fixtures.fresh fixtures.ready
           [] _ fixtures.world_ok OpLoad);
    [apply reachable_init | reflexivity].
Defined.

(** C3. Along any sequence of calls on a fresh handle, [is_loaded] answers
    false as long as no call of [GLiNER.from_pretrained] has returned a model,
    answers true once one has, and a true answer stays true whatever calls
    follow. *)
Theorem readiness_monotone (name : string)
    (before after : list (World * op))
    (s1 s2 : GLiNERModel) (tr1 tr2 : list event) :
  run before (__init__ name) = (s1, tr1) ->
  run after s1 = (s2, tr2) ->
  (constructions tr1 = 0 <-> is_loaded s1 = (Return false, s1, [])) /\
  (constructions tr1 = 1 <-> is_loaded s1 = (Return true, s1, [])) /\
  (is_loaded s1 = (Return true, s1, []) ->
   is_loaded s2 = (Return true, s2, [])).
Proof.
  intros H1 H2. unfold is_loaded.
  pose proof (run_inv name before _ _ [] tr1 (init_inv name) H1) as [_ Hi].
  cbn [app] in Hi.
  destruct (_loaded s1) eqn:Hl.
  - destruct Hi as [_ Hk].
    destruct (run_ready after s1 Hl) as (tr & Hrun & _).
    rewrite Hrun in H2. injection H2 as <- <-. rewrite Hl.
    repeat split; intros; try congruence; lia.
  - destruct Hi as [_ Hk]. repeat split; intros; try congruence; lia.
Qed.

Lemma readiness_monotone_witness :
  (constructions
     [EImport (Raise (Exn ImportError "No module named 'gliner2'"));
      EImport (Return tt);
      EFromPretrained default_model_name (Return fixtures.the_model)] = 0 <->
   is_loaded fixtures.ready = (Return false, fixtures.ready, [])) /\
  (constructions
     [EImport (Raise (Exn ImportError "No module named 'gliner2'"));
      EImport (Return tt);
      EFromPretrained default_model_name (Return fixtures.the_model)] = 1 <->
   is_loaded fixtures.ready = (Return true, fixtures.ready, [])) /\
  (is_loaded fixtures.ready = (Return true, fixtures.ready, []) ->
   is_loaded fixtures.ready = (Return true, fixtures.ready, [])).
Proof.
  apply (readiness_monotone default_model_name
           [(fixtures.world_missing, OpLoad); (fixtures.world_ok, OpLoad)]
           [(fixtures.world_offline, OpLoad); (fixtures.world_ok, OpIsLoaded)]
           fixtures.ready fixtures.ready _ []);
    reflexivity.
Defined.

(** C4, as stated, fails: when loading the weights raises an [ImportError]
    because [torch] is missing, [load] raises a [RuntimeError] whose text is
    the fixed one about the [gliner2] package, in which neither the text of
    the cause nor the name of the missing module occurs. *)
Lemma load_failure_hides_import_cause :
  init_fails service_fixtures.world_no_torch default_model_name
    (Exn ImportError "No module named 'torch'") /\
  load service_fixtures.world_no_torch fixtures.fresh =
    (Raise (Exn RuntimeError
              "gliner2 package not installed. Run: pip install gliner2"),
     fixtures.fresh,
     [EImport (Return tt);
      EFromPretrained default_model_name
        (Raise (Exn ImportError "No module named 'torch'"))]) /\
  contains "No module named 'torch'"
    "gliner2 package not installed. Run: pip install gliner2" = false /\
  contains "torch"
    "gliner2 package not installed. Run: pip install gliner2" = false.
Proof.
  split; [right; split; [now exists tt | reflexivity]|].
  repeat split.
Qed.

(** C4, amended. When initialisation fails on a reachable handle that is not
    ready (the import raises, or the import goes through and
    [GLiNER.from_pretrained] raises), [load] raises a [RuntimeError]: with
    the fixed text "gliner2 package not installed. Run: pip install gliner2"
    when the cause is an [ImportError], and otherwise with the text
    "Failed to load GLiNER2 model: " followed by the text of the cause.  The
    handle is left exactly as it was, not ready and without a model
    reference, and no model was constructed.  A later [load] in a world where
    initialisation goes through imports and constructs again and leaves the
    handle ready: no failure is cached. *)
Theorem load_failure_is_not_cached (name : string) (self : GLiNERModel)
    (tr : list event) (w : World) (cause : exn) :
  reachable name self tr ->
  _loaded self = false ->
  init_fails w name cause ->
  exists ev,
    load w self =
      (Raise (Exn RuntimeError
                (if is_ImportError cause
                 then "gliner2 package not installed. Run: pip install gliner2"
                 else ("Failed to load GLiNER2 model: "
                       ++ exn_str cause)%string)),
       self, ev) /\
    _model self = None /\
    constructions ev = 0 /\
    (forall w', init_succeeds w' name ->
       exists m,
         from_pretrained w' name = Return m /\
         load w' self =
           (Return tt,
            {| model_name := name; _model := Some m; _loaded := true |},
            [EImport (Return tt); EFromPretrained name (Return m)])).
Proof.
  intros Hr Hl Hfail.
  destruct (reachable_inv name self tr Hr) as [Hn Hinv].
  rewrite Hl in Hinv. destruct Hinv as [Hm _].
  assert (forall c : exn,
            load_except c =
            Exn RuntimeError
              (if is_ImportError c
               then "gliner2 package not installed. Run: pip install gliner2"
               else ("Failed to load GLiNER2 model: " ++ exn_str c)%string))
    as Hexc.
  { intros c. unfold load_except. now destruct (is_ImportError c). }
  assert (exists ev,
             load w self = (Raise (load_except cause), self, ev) /\
             constructions ev = 0) as (ev & Hload & Hk).
  { unfold load. rewrite Hl, Hn.
    destruct Hfail as [Hi | [[[] Hi] Hf]].
    - rewrite Hi. eexists. split; reflexivity.
    - rewrite Hi, Hf. eexists. split; reflexivity. }
  exists ev. rewrite <- Hexc. repeat split; auto.
  intros w' [[[] Hi'] [m Hf']]. exists m. split; [exact Hf'|].
  unfold load. now rewrite Hl, Hn, Hi', Hf'.
Qed.

Lemma load_failure_is_not_cached_witness :
  exists ev,
    load fixtures.world_offline fixtures.fresh =
      (Raise (Exn RuntimeError
                (if is_ImportError (Exn OtherError "connection refused")
                 then "gliner2 package not installed. Run: pip install gliner2"
                 else ("Failed to load GLiNER2 model: "
                       ++ exn_str (Exn OtherError "connection refused"))
                      %string)),
       fixtures.fresh, ev) /\
    _model fixtures.fresh = None /\
    constructions ev = 0 /\
    (forall w', init_succeeds w' default_model_name ->
       exists m,
         from_pretrained w' default_model_name = Return m /\
         load w' fixtures.fresh =
           (Return tt,
            {| model_name := default_model_name; _model := Some m;
               _loaded := true |},
            [EImport (Return tt);
             EFromPretrained default_model_name (Return m)])).
Proof.
  apply (load_failure_is_not_cached default_model_name fixtures.fresh []
           fixtures.world_offline (Exn OtherError "connection refused")).
  - apply reachable_init.
  - reflexivity.
  - right. split; [now exists tt | reflexivity].
Defined.

(** The scenario at the endpoint: the first request finds the package
    missing and is answered 500, the process holds an unloaded handle
    afterwards; the second request, with the package in place, loads the
    model and succeeds. *)
Example retry_after_failed_initialisation :
  main.post_extract fixtures.world_missing None fixtures.acme_body =
    (main.HTTPException 500
       "Extraction failed: gliner2 package not installed. Run: pip install gliner2",
     Some fixtures.fresh,
     [EImport (Raise (Exn ImportError "No module named 'gliner2'"))]) /\
  http_ok (fst (fst (main.post_extract fixtures.world_ok (Some fixtures.fresh)
                       fixtures.acme_body))) = true /\
  snd (fst (main.post_extract fixtures.world_ok (Some fixtures.fresh)
              fixtures.acme_body)) = Some fixtures.ready.
Proof. repeat split. Qed.

(** C5. [is_loaded] returns the readiness flag, leaves the handle as it is
    and makes no call on the world; as a step it changes nothing; and
    GET /health on a process that holds a handle answers with that flag,
    leaves the handle in place and calls nothing, while on a process without
    a handle it creates a fresh, unloaded one and still calls nothing. *)
Theorem is_loaded_has_no_effect (self : GLiNERModel) (w : World) :
  is_loaded self = (Return (_loaded self), self, []) /\
  step w OpIsLoaded self = (self, []) /\
  main.health_check (Some self) =
    (main.OK {| main.status := "healthy";
                main.model_loaded := _loaded self;
                main.health_model_name := model_name self |},
     Some self, []) /\
  main.health_check None =
    (main.OK {| main.status := "healthy";
                main.model_loaded := false;
                main.health_model_name := default_model_name |},
     Some (__init__ default_model_name), []).
Proof. repeat split. Qed.

(** C10. When [extract_entities] raises on a handle that is ready, the handle
    after the call is the handle before it: the flag is still true, the model
    reference is the same, and [GLiNER.from_pretrained] was not called. *)
Theorem extract_failure_keeps_ready (w : World) (self self' : GLiNERModel)
    (text : string) (entity_types : list string) (threshold : float)
    (e : exn) (ev : list event) :
  _loaded self = true ->
  extract_entities w self text entity_types threshold = (Raise e, self', ev) ->
  self' = self /\ _loaded self' = true /\ _model self' = _model self /\
  attempts ev = 0.
Proof.
  intros Hl Hx.
  destruct (extract_entities_handle w self text entity_types threshold)
    as (ev2 & Hs & He & Ha).
  rewrite Hx in Hs, He. rewrite (load_ready w self Hl) in Hs, He.
  cbn in Hs, He. subst. auto.
Qed.

Lemma extract_failure_keeps_ready_witness :
  fixtures.ready = fixtures.ready /\ _loaded fixtures.ready = true /\
  _model fixtures.ready = _model fixtures.ready /\
  attempts
    [EPredict fixtures.the_model "Acme Corp" ["org"] main.threshold_default
       (Raise (Exn OtherError "boom"))] = 0.
Proof.
  apply (extract_failure_keeps_ready fixtures.world_broken fixtures.ready
           fixtures.ready "Acme Corp" ["org"] main.threshold_default
           (Exn OtherError "boom"));
    reflexivity.
Defined.

(** ** Loops and dictionaries *)

Lemma for_each_Forall2 {A B : Type} (body : A -> result B) (xs : list A) :
  forall ys, for_each body xs = Return ys ->
             Forall2 (fun x y => body x = Return y) xs ys.
Proof.
  induction xs as [|x xs IH]; intros ys H; cbn in H.
  - injection H as <-. constructor.
  - destruct (body x) as [y|e] eqn:Hx; cbn in H; [|discriminate].
    destruct (for_each body xs) as [ys'|e] eqn:Hxs; cbn in H; [|discriminate].
    injection H as <-. constructor; auto.
Qed.

Lemma convert_entity_keys (entity converted : PyDict) :
  convert_entity entity = Return converted ->
  dom converted = entity_keys.
Proof.
  unfold convert_entity, getitem.
  destruct (entity !! "text"); cbn; [|discriminate].
  destruct (entity !! "label"); cbn; [|discriminate].
  destruct (entity !! "start"); cbn; [|discriminate].
  destruct (entity !! "end"); cbn; [|discriminate].
  destruct (entity !! "score"); cbn; [|discriminate].
  intros H. injection H as <-.
  unfold entity_keys. rewrite !dom_insert_L, dom_singleton_L. set_solver.
Qed.

Lemma Entity_dump_keys (e : main.Entity) :
  dom (main.Entity_dump e) = entity_keys.
Proof.
  unfold main.Entity_dump, entity_keys.
  rewrite !dom_insert_L, dom_singleton_L. set_solver.
Qed.

(** What [model.extract_entities] returns are converted entities. *)
Lemma extract_entities_keys (w : World) (self self' : GLiNERModel)
    (text : string) (entity_types : list string) (threshold : float)
    (results : list PyDict) (ev : list event) :
  extract_entities w self text entity_types threshold
    = (Return results, self', ev) ->
  Forall (fun d => dom d = entity_keys) results.
Proof.
  unfold extract_entities.
  destruct (if negb (_loaded self) then load w self else (Return tt, self, []))
    as [[[u|e] s1] ev1]; [|discriminate].
  unfold extract_try. destruct (_model s1) as [m|]; [|discriminate].
  destruct (predict_entities w m text entity_types threshold) as [ents|e];
    cbn [bind]; [|discriminate].
  intros H. injection H as H _ _.
  apply for_each_Forall2 in H.
  induction H as [|d d' ds ds' Hd _ IH]; constructor; auto.
  eapply convert_entity_keys; eauto.
Qed.

(** ** The endpoints *)

Lemma threshold_ok_spec (t : float) :
  main.threshold_ok t = true <-> in_unit_interval t.
Proof. unfold main.threshold_ok, in_unit_interval. apply andb_true_iff. Qed.


(** Which bodies validate. *)
Lemma ExtractRequest_validate_spec (b : main.ExtractBody) :
  match main.ExtractRequest_validate b with
  | inl request =>
      main.body_text b <> "" /\ main.body_entity_types b <> [] /\
      (forall t, main.body_threshold b = Some t -> in_unit_interval t) /\
      main.text request = main.body_text b /\
      main.entity_types request = main.body_entity_types b /\
      main.threshold request =
        match main.body_threshold b with
        | Some t => t
        | None => main.threshold_default
        end
  | inr errors =>
      errors <> [] /\
      (main.body_text b = "" \/ main.body_entity_types b = [] \/
       exists t, main.body_threshold b = Some t /\ ~ in_unit_interval t)
  end.
Proof.
  destruct b as [text types th]. unfold main.ExtractRequest_validate.
  cbn [main.body_text main.body_entity_types main.body_threshold].
  destruct text as [|c text]; cbn [main.text_ok String.length Nat.leb].
  { cbn. split; [discriminate | now left]. }
  destruct types as [|ty types]; cbn [main.entity_types_ok length Nat.leb].
  { cbn. split; [discriminate | right; now left]. }
  destruct th as [t|]; cbn [app].
  - destruct (main.threshold_ok t) eqn:Ht.
    + cbn. split; [discriminate|]. split; [discriminate|].
      split; [|repeat split].
      intros t' [= <-]. now apply threshold_ok_spec.
    + split; [discriminate|]. right. right. exists t. split; [reflexivity|].
      rewrite <- threshold_ok_spec. congruence.
  - cbn. split; [discriminate|]. split; [discriminate|].
    split; [discriminate | repeat split].
Qed.


(** The answer to a refused body is never a 200. *)
Lemma refusal_not_OK (b : main.ExtractBody) (errors : list string)
    (body : main.ExtractResponse) :
  main.refusal b errors <> main.OK body.
Proof. unfold main.refusal. now destruct (main.threshold_unwritable b). Qed.



(** The three invalid bodies and a valid one. *)
Example validation_examples :
  main.ExtractRequest_validate
    {| main.body_text := ""; main.body_entity_types := ["person"];
       main.body_threshold := None |} = inr ["text"] /\
  main.ExtractRequest_validate
    {| main.body_text := "Acme Corp"; main.body_entity_types := [];
       main.body_threshold := None |} = inr ["entity_types"] /\
  main.ExtractRequest_validate
    {| main.body_text := "Acme Corp"; main.body_entity_types := ["org"];
       main.body_threshold := Some 1.5%float |} = inr ["threshold"] /\
  main.ExtractRequest_validate
    {| main.body_text := "Acme Corp"; main.body_entity_types := ["org"];
       main.body_threshold := Some nan |} = inr ["threshold"] /\
  main.ExtractRequest_validate fixtures.acme_body
    = inl fixtures.acme_request.
Proof. repeat split. Qed.

(** C7. When POST /extract succeeds, [entity_count] is the number of entities
    in the answer, [text_length] is the length of the text of the body, every
    entity of the answer serialises to exactly the keys text, label, start,
    end and score, and the entities are, one for one, the dictionaries the
    model wrapper returned, each of which has exactly those keys. *)
Theorem extract_response_shape (w : World) (g g' : option GLiNERModel)
    (b : main.ExtractBody) (body : main.ExtractResponse) (ev : list event) :
  main.post_extract w g b = (main.OK body, g', ev) ->
  main.entity_count body = Z.of_nat (length (main.entities body)) /\
  main.text_length body = Z.of_nat (String.length (main.body_text b)) /\
  Forall (fun e => dom (main.Entity_dump e) = entity_keys)
         (main.entities body) /\
  exists (request : main.ExtractRequest) (results : list PyDict),
    main.ExtractRequest_validate b = inl request /\
    fst (fst (extract_entities w (fst (get_model g)) (main.text request)
                (main.entity_types request) (main.threshold request)))
      = Return results /\
    Forall (fun d => dom d = entity_keys) results /\
    Forall2 (fun d e => main.Entity_init w d = Return e)
            results (main.entities body).
Proof.
  unfold main.post_extract.
  pose proof (ExtractRequest_validate_spec b) as Hv.
  destruct (main.ExtractRequest_validate b) as [request|errors];
    [|intros [= H _ _]; now apply refusal_not_OK in H].
  destruct Hv as (_ & _ & _ & Htext & _).
  unfold main.extract_entities.
  destruct (get_model g) as [m g1]. cbn [fst].
  destruct (extract_entities w m (main.text request)
              (main.entity_types request) (main.threshold request))
    as [[r m'] ev'] eqn:Hx.
  destruct r as [results|e]; cbn [bind]; [|discriminate].
  unfold main.build_response.
  destruct (for_each (main.Entity_init w) results) as [es|e] eqn:Hes;
    cbn [bind]; [|discriminate].
  intros H. injection H as <- _ _. cbn.
  apply for_each_Forall2 in Hes.
  repeat split.
  - f_equal. eapply Forall2_length; eauto.
  - now rewrite Htext.
  - apply Forall_forall. intros e _. apply Entity_dump_keys.
  - exists request, results.
    split; [reflexivity|]. split; [now rewrite Hx|].
    split; [eapply extract_entities_keys; eauto | exact Hes].
Qed.

Lemma extract_response_shape_witness :
  let body :=
    {| main.entities :=
         [{| main.entity_text := "Acme Corp"; main.label := "org";
             main.start := 0; main.end_ := 9; main.score := 0.5%float |}];
       main.entity_count := 1;
       main.text_length := 9 |} in
  main.entity_count body = Z.of_nat (length (main.entities body)) /\
  main.text_length body
    = Z.of_nat (String.length (main.body_text fixtures.acme_body)) /\
  Forall (fun e => dom (main.Entity_dump e) = entity_keys)
         (main.entities body) /\
  exists (request : main.ExtractRequest) (results : list PyDict),
    main.ExtractRequest_validate fixtures.acme_body = inl request /\
    fst (fst (extract_entities fixtures.world_ok (fst (get_model None))
                (main.text request) (main.entity_types request)
                (main.threshold request)))
      = Return results /\
    Forall (fun d => dom d = entity_keys) results /\
    Forall2 (fun d e => main.Entity_init fixtures.world_ok d = Return e)
            results (main.entities body).
Proof.
  apply (extract_response_shape fixtures.world_ok None
           (Some fixtures.ready) fixtures.acme_body _
           [EImport (Return tt);
            EFromPretrained default_model_name (Return fixtures.the_model);
            EPredict fixtures.the_model "Acme Corp" ["org"]
              main.threshold_default (Return [fixtures.acme])]).
  vm_compute. reflexivity.
Defined.

(** ** Metadata *)

Lemma model_info_returns (self : GLiNERModel) :
  model_info self = (Return (info_of self), self, []).
Proof. reflexivity. Qed.

Lemma info_of_without_loaded (self : GLiNERModel) :
  delete "loaded" (info_of self) =
  ({[ "model_name" := VStr (model_name self);
      "model_type" := VStr "GLiNER2";
      "parameters" := VStr "340M";
      "license" := VStr "Apache 2.0" ]} : PyDict).
Proof.
  unfold info_of, model_info. cbn [fst].
  rewrite delete_insert_ne by discriminate.
  rewrite delete_insert_eq.
  rewrite !delete_insert_ne by discriminate.
  rewrite delete_singleton_ne by discriminate.
  reflexivity.
Qed.

(** C8, as stated, fails: the dictionary [model_info] returns on a fresh
    handle differs from the one it returns after a successful [load], in the
    entry [loaded]. *)
Lemma model_info_depends_on_readiness :
  run [(fixtures.world_ok, OpLoad)] fixtures.fresh
    = (fixtures.ready,
       [EImport (Return tt);
        EFromPretrained default_model_name (Return fixtures.the_model)]) /\
  info_of fixtures.fresh !! "loaded" = Some (VBool false) /\
  info_of fixtures.ready !! "loaded" = Some (VBool true) /\
  fst (fst (model_info fixtures.fresh)) <> fst (fst (model_info fixtures.ready)).
Proof.
  split; [reflexivity|]. split; [reflexivity|]. split; [reflexivity|].
  intros H.
  apply (f_equal (fun r : result PyDict =>
                    match r with
                    | Return d => d !! "loaded"
                    | Raise _ => None
                    end)) in H.
  vm_compute in H. discriminate.
Qed.

(** C8, amended. On a handle reached from a fresh one by any sequence of
    calls, [model_info] returns, without touching the handle or the world, a
    dictionary with the keys model_name, loaded, model_type, parameters and
    license; its entry [loaded] is the readiness flag, and all its other
    entries are those returned on the fresh handle. *)
Theorem model_info_static_fields (name : string) (steps : list (World * op))
    (self : GLiNERModel) (tr : list event) :
  run steps (__init__ name) = (self, tr) ->
  exists info0 info : PyDict,
    model_info (__init__ name) = (Return info0, __init__ name, []) /\
    model_info self = (Return info, self, []) /\
    dom info =
      {[ "model_name"; "loaded"; "model_type"; "parameters"; "license" ]} /\
    info !! "loaded" = Some (VBool (_loaded self)) /\
    info0 !! "loaded" = Some (VBool false) /\
    delete "loaded" info = delete "loaded" info0 /\
    info !! "model_name" = Some (VStr name) /\
    info !! "model_type" = Some (VStr "GLiNER2").
Proof.
  intros Hrun.
  pose proof (run_inv name steps _ _ [] tr (init_inv name) Hrun) as [Hn _].
  exists (info_of (__init__ name)), (info_of self).
  split; [reflexivity|]. split; [reflexivity|].
  split.
  { unfold info_of, model_info. cbn [fst].
    rewrite !dom_insert_L, dom_singleton_L. set_solver. }
  split; [reflexivity|]. split; [reflexivity|].
  split.
  { rewrite !info_of_without_loaded. cbn [model_name __init__].
    now rewrite Hn. }
  split; [|reflexivity].
  unfold info_of, model_info. cbn [fst].
  rewrite lookup_insert_eq. now rewrite Hn.
Qed.

Lemma model_info_static_fields_witness :
  exists info0 info : PyDict,
    model_info (__init__ default_model_name)
      = (Return info0, __init__ default_model_name, []) /\
    model_info fixtures.ready = (Return info, fixtures.ready, []) /\
    dom info =
      {[ "model_name"; "loaded"; "model_type"; "parameters"; "license" ]} /\
    info !! "loaded" = Some (VBool (_loaded fixtures.ready)) /\
    info0 !! "loaded" = Some (VBool false) /\
    delete "loaded" info = delete "loaded" info0 /\
    info !! "model_name" = Some (VStr default_model_name) /\
    info !! "model_type" = Some (VStr "GLiNER2").
Proof.
  apply (model_info_static_fields default_model_name
           [(fixtures.world_ok, OpLoad)] fixtures.ready
           [EImport (Return tt);
            EFromPretrained default_model_name (Return fixtures.the_model)]).
  reflexivity.
Defined.

(** ** Failures of the model *)

(** C9, as stated, fails: with a ready handle and a model whose prediction
    raises "boom", POST /extract for the text "Acme Corp" and the type "org"
    is answered 500 with the detail "Extraction failed: boom", which has the
    cause in it but nothing of the request: not its text, not an entity type,
    not the length of the text. *)
Lemma extraction_failure_omits_input :
  main.post_extract fixtures.world_broken (Some fixtures.ready)
    fixtures.acme_body
  = (main.HTTPException 500 "Extraction failed: boom",
     Some fixtures.ready,
     [EPredict fixtures.the_model "Acme Corp" ["org"] main.threshold_default
        (Raise (Exn OtherError "boom"))]) /\
  contains "boom" "Extraction failed: boom" = true /\
  mentions_input "Extraction failed: boom" fixtures.acme_request = false.
Proof. repeat split. Qed.

(** C9, amended. When the model's [predict_entities] raises during
    POST /extract (the handle being ready already, or made ready by this very
    request), the answer is an [HTTPException] with status 500 whose detail is
    "Extraction failed: " followed by the text of the exception raised; the
    handle stays ready. *)
Theorem extraction_failure_is_500_with_cause (w : World)
    (g : option GLiNERModel) (request : main.ExtractRequest)
    (self1 : GLiNERModel) (ev1 : list event) (m : GLiNER) (cause : exn) :
  load w (fst (get_model g)) = (Return tt, self1, ev1) ->
  _model self1 = Some m ->
  predict_entities w m (main.text request) (main.entity_types request)
    (main.threshold request) = Raise cause ->
  main.extract_entities w g request =
    (main.HTTPException 500 ("Extraction failed: " ++ exn_str cause)%string,
     Some self1,
     ev1 ++ [EPredict m (main.text request) (main.entity_types request)
               (main.threshold request) (Raise cause)]).
Proof.
  intros Hload Hm Hp.
  unfold main.extract_entities.
  destruct (get_model g) as [self g1]. cbn [fst] in Hload.
  unfold extract_entities.
  assert ((if negb (_loaded self) then load w self else (Return tt, self, []))
          = (Return tt, self1, ev1)) as ->.
  { destruct (_loaded self) eqn:Hl; cbn [negb]; [|exact Hload].
    now rewrite (load_ready w self Hl) in Hload. }
  unfold extract_try. rewrite Hm, Hp. reflexivity.
Qed.

Lemma extraction_failure_is_500_with_cause_witness :
  main.extract_entities fixtures.world_broken None fixtures.acme_request =
    (main.HTTPException 500
       ("Extraction failed: " ++ exn_str (Exn OtherError "boom"))%string,
     Some fixtures.ready,
     [EImport (Return tt);
      EFromPretrained default_model_name (Return fixtures.the_model)] ++
     [EPredict fixtures.the_model (main.text fixtures.acme_request)
        (main.entity_types fixtures.acme_request)
        (main.threshold fixtures.acme_request)
        (Raise (Exn OtherError "boom"))]).
Proof.
  apply (extraction_failure_is_500_with_cause fixtures.world_broken None
           fixtures.acme_request fixtures.ready); reflexivity.
Defined.

(** ** The process: requests served in turn *)

Lemma lifespan_startup_as_step (w : World) (g : option GLiNERModel) :
  exists m' ev,
    main.lifespan_startup w g = (Some m', ev) /\
    step w OpLoad (fst (get_model g)) = (m', ev).
Proof.
  unfold main.lifespan_startup. destruct (get_model g) as [m g1]. cbn.
  destruct (load w m) as [[r m'] ev]. now exists m', ev.
Qed.

(** A request either leaves the process alone or is a step on the handle
    [get_model] gives. *)
Lemma serve_as_step (w : main.ServiceWorld) (r : main.request)
    (g : option GLiNERModel) :
  (exists code, main.serve w r g = (code, g, [])) \/
  (exists code o m' ev,
      main.serve w r g = (code, Some m', ev) /\
      step (main.world w) o (fst (get_model g)) = (m', ev)).
Proof.
  destruct r as [| |b|]; cbn [main.serve].
  - right. unfold main.health_check. destruct (get_model g) as [m g1]. cbn.
    eexists _, OpIsLoaded, m, []. split; reflexivity.
  - right. unfold main.model_info. destruct (get_model g) as [m g1]. cbn.
    eexists _, OpModelInfo, m, []. split; reflexivity.
  - unfold main.post_extract.
    destruct (main.ExtractRequest_validate b) as [request|errors].
    + right. unfold main.extract_entities.
      destruct (get_model g) as [m g1]. cbn [fst].
      destruct (extract_entities (main.world w) m (main.text request)
                  (main.entity_types request) (main.threshold request))
        as [[x m'] ev] eqn:Hx.
      eexists _, (OpExtract (main.text request) (main.entity_types request)
                    (main.threshold request)), m', ev.
      split; [reflexivity|]. cbn [step]. now rewrite Hx.
    + left. now eexists.
  - left. now eexists.
Qed.

Lemma get_model_inv (g : option GLiNERModel) (tr : list event) :
  process_inv g tr ->
  handle_inv default_model_name (fst (get_model g)) tr.
Proof.
  destruct g as [m|]; cbn; [auto|]. intros ->. apply init_inv.
Qed.

Lemma serve_inv (w : main.ServiceWorld) (r : main.request)
    (g g' : option GLiNERModel) (code : Z) (tr ev : list event) :
  process_inv g tr ->
  main.serve w r g = (code, g', ev) ->
  process_inv g' (tr ++ ev).
Proof.
  intros Hinv Hs.
  destruct (serve_as_step w r g) as [(c & H) | (c & o & m' & ev' & H & Hstep)];
    rewrite H in Hs; injection Hs as <- <- <-.
  - now rewrite List.app_nil_r.
  - cbn. eapply step_inv; [apply get_model_inv|]; eauto.
Qed.

Lemma serve_all_inv (requests : list (main.ServiceWorld * main.request)) :
  forall (g g' : option GLiNERModel) (codes : list Z) (tr ev : list event),
    process_inv g tr ->
    main.serve_all requests g = (codes, g', ev) ->
    process_inv g' (tr ++ ev) /\ length codes = length requests.
Proof.
  induction requests as [|[w r] rest IH]; intros g g' codes tr ev Hinv Hs;
    cbn [main.serve_all] in Hs.
  - injection Hs as <- <- <-. now rewrite List.app_nil_r.
  - destruct (main.serve w r g) as [[code g1] ev1] eqn:H1.
    destruct (main.serve_all rest g1) as [[codes2 g2] ev2] eqn:H2.
    injection Hs as <- <- <-. rewrite List.app_assoc.
    destruct (IH g1 g2 codes2 (tr ++ ev1) ev2) as [Hi Hl];
      [eapply serve_inv; eauto | exact H2 |].
    split; [exact Hi | cbn; now rewrite Hl].
Qed.

Lemma app_inv (startup : World)
    (requests : list (main.ServiceWorld * main.request))
    (codes : list Z) (g : option GLiNERModel) (tr : list event) :
  main.app startup requests = (codes, g, tr) ->
  process_inv g tr /\ g <> None /\ length codes = length requests.
Proof.
  unfold main.app.
  destruct (lifespan_startup_as_step startup None) as (m0 & ev0 & Hl & Hstep).
  rewrite Hl.
  destruct (main.serve_all requests (Some m0)) as [[codes' g'] ev] eqn:Hs.
  intros H. injection H as <- <- <-.
  assert (process_inv (Some m0) ([] ++ ev0)) as H0.
  { cbn [process_inv]. eapply step_inv; [apply init_inv | exact Hstep]. }
  cbn [app] in H0.
  destruct (serve_all_inv requests _ _ _ _ _ H0 Hs) as [Hi Hlen].
  repeat split; auto.
  destruct g'; [discriminate|]. cbn in Hi.
  destruct ev0; [|discriminate].
  (* no handle left although startup stored one: impossible *)
  clear - Hs. exfalso. revert m0 codes' ev Hs.
  induction requests as [|[w r] rest IH]; intros m0 codes' ev Hs;
    cbn [main.serve_all] in Hs; [discriminate|].
  destruct (main.serve w r (Some m0)) as [[code g1] ev1] eqn:H1.
  destruct (main.serve_all rest g1) as [[codes2 g2] ev2] eqn:H2.
  injection Hs as <- -> <-.
  destruct (serve_as_step w r (Some m0))
    as [(c & H) | (c & o & m' & ev' & H & _)];
    rewrite H in H1; injection H1 as <- <- <-; eapply IH; eauto.
Qed.

(** X1. Over the life of a process (warmup, then any requests served in
    turn, in any worlds), every request is answered, [_global_model] ends up
    holding a handle for the default model, and [GLiNER.from_pretrained]
    returned a model at most once: once if the handle ends ready, never if it
    does not. *)
Theorem process_constructs_at_most_once (startup : World)
    (requests : list (main.ServiceWorld * main.request))
    (codes : list Z) (g : option GLiNERModel) (tr : list event) :
  main.app startup requests = (codes, g, tr) ->
  length codes = length requests /\
  constructions tr <= 1 /\
  exists m, g = Some m /\ model_name m = default_model_name /\
            (_loaded m = true <-> constructions tr = 1) /\
            (_loaded m = false <-> constructions tr = 0).
Proof.
  intros Happ. destruct (app_inv _ _ _ _ _ Happ) as (Hinv & Hg & Hlen).
  destruct g as [m|]; [|contradiction]. cbn [process_inv] in Hinv.
  destruct Hinv as [Hn Hinv].
  split; [exact Hlen|].
  destruct (_loaded m) eqn:Hl; destruct Hinv as [_ Hk].
  - split; [lia|]. exists m. rewrite Hl.
    repeat split; auto; try congruence; lia.
  - split; [lia|]. exists m. rewrite Hl.
    repeat split; auto; try congruence; lia.
Qed.

Lemma process_constructs_at_most_once_witness :
  let tr :=
    [EImport (Raise (Exn ImportError "No module named 'gliner2'"));
     EImport (Raise (Exn ImportError "No module named 'gliner2'"));
     EImport (Return tt);
     EFromPretrained default_model_name (Return fixtures.the_model);
     EPredict fixtures.the_model "Acme Corp" ["org"] main.threshold_default
       (Return [fixtures.acme]);
     EPredict fixtures.the_model "Acme Corp" ["org"] main.threshold_default
       (Raise (Exn OtherError "boom"))] in
  length [500%Z; 200%Z; 200%Z; 200%Z; 500%Z] = 5 /\
  constructions tr <= 1 /\
  exists m, Some fixtures.ready = Some m /\
            model_name m = default_model_name /\
            (_loaded m = true <-> constructions tr = 1) /\
            (_loaded m = false <-> constructions tr = 0).
Proof.
  apply (process_constructs_at_most_once fixtures.world_missing
           [(service_fixtures.serving fixtures.world_missing,
             main.POST_extract fixtures.acme_body);
            (service_fixtures.serving fixtures.world_ok, main.GET_health);
            (service_fixtures.serving fixtures.world_ok,
             main.POST_extract fixtures.acme_body);
            (service_fixtures.serving fixtures.world_offline,
             main.GET_model_info);
            (service_fixtures.serving fixtures.world_broken,
             main.POST_extract fixtures.acme_body)]).
  reflexivity.
Defined.

Lemma step_ready_predicts (w : World) (o : op) (self : GLiNERModel)
    (m : GLiNER) :
  _loaded self = true ->
  _model self = Some m ->
  exists ev, step w o self = (self, ev) /\ Forall (is_predict_on m) ev.
Proof.
  intros Hl Hm. destruct o as [|text entity_types threshold| |]; cbn [step].
  - rewrite (load_ready w self Hl). now exists [].
  - unfold extract_entities. rewrite Hl. cbn [negb].
    unfold extract_try. rewrite Hm. eexists. split; [reflexivity|].
    constructor; [reflexivity | constructor].
  - now exists [].
  - now exists [].
Qed.

Lemma serve_all_ready (requests : list (main.ServiceWorld * main.request))
    (self : GLiNERModel) (m : GLiNER) :
  _loaded self = true ->
  _model self = Some m ->
  exists codes ev,
    main.serve_all requests (Some self) = (codes, Some self, ev) /\
    Forall (is_predict_on m) ev.
Proof.
  intros Hl Hm.
  induction requests as [|[w r] rest (codes & ev & Hrest & Hev)];
    cbn [main.serve_all].
  - now exists [], [].
  - destruct (serve_as_step w r (Some self))
      as [(c & H) | (c & o & m' & ev' & H & Hstep)]; rewrite H.
    + rewrite Hrest. now exists (c :: codes), ev.
    + cbn [get_model fst] in Hstep.
      destruct (step_ready_predicts (main.world w) o self m Hl Hm)
        as (ev1 & Hs & Hp).
      rewrite Hs in Hstep. injection Hstep as <- <-.
      rewrite Hrest. exists (c :: codes), (ev1 ++ ev). split; [reflexivity|].
      apply Forall_app. now split.
Qed.

(** X2. When the warmup succeeds, the process holds from then on the ready
    handle with the model the warmup constructed: whatever requests follow,
    in whatever worlds, the only calls made on the world after the warmup's
    import and construction are predictions asked of that one model. *)
Theorem warm_process_only_predicts (startup : World)
    (requests : list (main.ServiceWorld * main.request)) (m : GLiNER) :
  import_gliner2 startup = Return tt ->
  from_pretrained startup default_model_name = Return m ->
  exists codes served,
    main.app startup requests =
      (codes,
       Some {| model_name := default_model_name; _model := Some m;
               _loaded := true |},
       [EImport (Return tt); EFromPretrained default_model_name (Return m)]
       ++ served) /\
    Forall (is_predict_on m) served.
Proof.
  intros Hi Hf. unfold main.app, main.lifespan_startup.
  cbn [get_model]. unfold load. cbn [__init__ _loaded model_name].
  rewrite Hi, Hf.
  destruct (serve_all_ready requests
              {| model_name := default_model_name; _model := Some m;
                 _loaded := true |} m eq_refl eq_refl)
    as (codes & ev & Hs & Hp).
  rewrite Hs. now exists codes, ev.
Qed.

Lemma warm_process_only_predicts_witness :
  exists codes served,
    main.app fixtures.world_ok
      [(service_fixtures.serving fixtures.world_missing,
        main.POST_extract fixtures.acme_body);
       (service_fixtures.serving fixtures.world_offline, main.GET_health)] =
      (codes,
       Some {| model_name := default_model_name;
               _model := Some fixtures.the_model; _loaded := true |},
       [EImport (Return tt);
        EFromPretrained default_model_name (Return fixtures.the_model)]
       ++ served) /\
    Forall (is_predict_on fixtures.the_model) served.
Proof.
  apply (warm_process_only_predicts fixtures.world_ok
           [(service_fixtures.serving fixtures.world_missing,
             main.POST_extract fixtures.acme_body);
            (service_fixtures.serving fixtures.world_offline,
             main.GET_health)]
           fixtures.the_model);
    reflexivity.
Defined.

(** X3. In any state a process can be in, GET /health answers 200 with
    status "healthy", leaves the process as it is and calls nothing; the
    model name it reports is the one GET / reports, and it reports the model
    loaded exactly when a construction has succeeded. *)
Theorem health_and_root_agree (startup : World)
    (requests : list (main.ServiceWorld * main.request))
    (codes : list Z) (g : option GLiNERModel) (tr : list event) :
  main.app startup requests = (codes, g, tr) ->
  exists (health : main.HealthResponse) (home : main.RootResponse),
    main.health_check g = (main.OK health, g, []) /\
    main.root g = (main.OK home, g, []) /\
    main.status health = "healthy" /\
    main.health_model_name health = main.root_model home /\
    (main.model_loaded health = true <-> constructions tr = 1).
Proof.
  intros Happ. destruct (app_inv _ _ _ _ _ Happ) as (Hinv & Hg & _).
  destruct g as [m|]; [|contradiction]. cbn [process_inv] in Hinv.
  destruct Hinv as [Hn Hinv].
  eexists _, _. split; [reflexivity|]. split; [reflexivity|].
  cbn. split; [reflexivity|]. split; [exact Hn|].
  destruct (_loaded m); destruct Hinv as [_ Hk]; split; intros; auto;
    try congruence; lia.
Qed.

Lemma health_and_root_agree_witness :
  exists (health : main.HealthResponse) (home : main.RootResponse),
    main.health_check (Some fixtures.fresh)
      = (main.OK health, Some fixtures.fresh, []) /\
    main.root (Some fixtures.fresh) = (main.OK home, Some fixtures.fresh, []) /\
    main.status health = "healthy" /\
    main.health_model_name health = main.root_model home /\
    (main.model_loaded health = true <->
     constructions
       [EImport (Raise (Exn ImportError "No module named 'gliner2'"))] = 1).
Proof.
  apply (health_and_root_agree fixtures.world_missing
           [(service_fixtures.serving fixtures.world_ok, main.GET_root)]
           [200%Z]).
  reflexivity.
Defined.

(** X4. GET /model_info, when pydantic takes a [str] for a [str] field and a
    [bool] for a [bool] field, always answers 200: the name, the readiness
    flag and the three constants of the handle [get_model] gives.  It leaves
    that handle as it is and makes no call on the world, so it never loads
    the model. *)
Theorem model_info_endpoint_succeeds (w : main.ServiceWorld)
    (g : option GLiNERModel) :
  (forall s, as_str (main.world w) (VStr s) = Some s) ->
  (forall b, main.as_bool w (VBool b) = Some b) ->
  main.model_info w g =
    (main.OK {| main.info_model_name := model_name (fst (get_model g));
                main.loaded := _loaded (fst (get_model g));
                main.model_type := "GLiNER2";
                main.parameters := "340M";
                main.license := "Apache 2.0" |},
     Some (fst (get_model g)), []).
Proof.
  intros Hs Hb. unfold main.model_info.
  destruct (get_model g) as [m g1]. cbn [fst model_info bind].
  unfold main.ModelInfoResponse_init, main.field.
  change ((_ : PyDict) !! "model_name") with (Some (VStr (model_name m))).
  change ((_ : PyDict) !! "loaded") with (Some (VBool (_loaded m))).
  change ((_ : PyDict) !! "model_type") with (Some (VStr "GLiNER2")).
  change ((_ : PyDict) !! "parameters") with (Some (VStr "340M")).
  change ((_ : PyDict) !! "license") with (Some (VStr "Apache 2.0")).
  cbv beta iota. now rewrite !Hs, Hb.
Qed.

Lemma model_info_endpoint_succeeds_witness :
  main.model_info (service_fixtures.serving fixtures.world_offline) None =
    (main.OK {| main.info_model_name := model_name (fst (get_model None));
                main.loaded := _loaded (fst (get_model None));
                main.model_type := "GLiNER2";
                main.parameters := "340M";
                main.license := "Apache 2.0" |},
     Some (fst (get_model None)), []).
Proof.
  apply (model_info_endpoint_succeeds
           (service_fixtures.serving fixtures.world_offline) None);
    reflexivity.
Defined.

(** ** Converting what the model predicts *)

(** Either all five keys are there and the entity is rebuilt from them, or
    the first key that is missing, in reading order, is reported. *)
Lemma convert_entity_cases (d : PyDict) :
  (exists t l s e sc,
      d !! "text" = Some t /\ d !! "label" = Some l /\
      d !! "start" = Some s /\ d !! "end" = Some e /\
      d !! "score" = Some sc /\
      convert_entity d =
        Return ({[ "text" := t; "label" := l; "start" := s; "end" := e;
                   "score" := sc ]} : PyDict)) \/
  (exists before k after,
      entity_key_order = before ++ k :: after /\
      Forall (fun k' => is_Some (d !! k')) before /\
      d !! k = None /\
      convert_entity d = Raise (Exn KeyError ("'" ++ k ++ "'")%string)).
Proof.
  unfold convert_entity, getitem.
  destruct (d !! "text") as [t|] eqn:Ht; cbn [bind];
    [|right; exists [], "text", ["label"; "start"; "end"; "score"];
      repeat split; auto].
  destruct (d !! "label") as [l|] eqn:Hl; cbn [bind];
    [|right; exists ["text"], "label", ["start"; "end"; "score"];
      repeat split; auto; repeat constructor; rewrite ?Ht; eauto].
  destruct (d !! "start") as [s|] eqn:Hs; cbn [bind];
    [|right; exists ["text"; "label"], "start", ["end"; "score"];
      repeat split; auto; repeat constructor; rewrite ?Ht, ?Hl; eauto].
  destruct (d !! "end") as [e|] eqn:He; cbn [bind];
    [|right; exists ["text"; "label"; "start"], "end", ["score"];
      repeat split; auto; repeat constructor; rewrite ?Ht, ?Hl, ?Hs; eauto].
  destruct (d !! "score") as [sc|] eqn:Hsc; cbn [bind];
    [|right; exists ["text"; "label"; "start"; "end"], "score", [];
      repeat split; auto; repeat constructor;
      rewrite ?Ht, ?Hl, ?Hs, ?He; eauto].
  left. exists t, l, s, e, sc. repeat split.
Qed.

(** A key of [entity_key_order] is one of the five. *)
Lemma in_entity_key_order (k : string) :
  In k entity_key_order ->
  k = "text" \/ k = "label" \/ k = "start" \/ k = "end" \/ k = "score".
Proof. cbn. intuition. Qed.

(** In a list, the first element that fails a test is unique. *)
Lemma first_failure_unique {A : Type} (Q : A -> Prop) (l : list A) :
  forall (b1 b2 a1 a2 : list A) (k1 k2 : A),
    l = b1 ++ k1 :: a1 -> l = b2 ++ k2 :: a2 ->
    Forall Q b1 -> ~ Q k1 -> Forall Q b2 -> ~ Q k2 ->
    k1 = k2.
Proof.
  induction l as [|x l IH]; intros b1 b2 a1 a2 k1 k2 H1 H2 F1 N1 F2 N2.
  - destruct b1; discriminate.
  - destruct b1 as [|c1 b1], b2 as [|c2 b2]; cbn in H1, H2;
      injection H1 as -> H1; injection H2 as E2 H2.
    + congruence.
    + subst c2. inversion F2; contradiction.
    + subst c1. inversion F1; contradiction.
    + subst c2. inversion F1; inversion F2; subst. eapply IH; eauto.
Qed.

(** X5. When [convert_entity] returns, the dictionary it returns is part of
    the one it was given, has exactly the keys text, label, start, end and
    score (any other key is dropped), and converting it again gives it
    back. *)
Theorem convert_entity_keeps_five_fields (d d' : PyDict) :
  convert_entity d = Return d' ->
  d' ⊆ d /\ dom d' = entity_keys /\ convert_entity d' = Return d'.
Proof.
  intros H.
  destruct (convert_entity_cases d)
    as [(t & l & s & e & sc & Ht & Hl & Hs & He & Hsc & Hc)
       |(before & k & after & _ & _ & _ & Hc)];
    rewrite Hc in H; [|discriminate].
  injection H as <-. split; [|split].
  - apply map_subseteq_spec. intros k v Hk.
    rewrite !lookup_insert_Some, lookup_singleton_Some in Hk.
    repeat (destruct Hk as [[<- <-] | [_ Hk]]; [assumption|]).
    now destruct Hk as [<- <-].
  - unfold entity_keys. rewrite !dom_insert_L, dom_singleton_L. set_solver.
  - reflexivity.
Qed.

Lemma convert_entity_keeps_five_fields_witness :
  fixtures.acme ⊆ service_fixtures.acme_with_id /\
  dom fixtures.acme = entity_keys /\
  convert_entity fixtures.acme = Return fixtures.acme.
Proof.
  apply (convert_entity_keeps_five_fields service_fixtures.acme_with_id
           fixtures.acme).
  reflexivity.
Defined.

(** X6. [convert_entity] raises exactly when one of the five keys is missing,
    and what it raises is the [KeyError] of the first missing key in the
    order text, label, start, end, score. *)
Theorem convert_entity_reports_first_missing_key (d : PyDict) (e : exn) :
  convert_entity d = Raise e <->
  exists before k after,
    entity_key_order = before ++ k :: after /\
    Forall (fun k' => is_Some (d !! k')) before /\
    d !! k = None /\
    e = Exn KeyError ("'" ++ k ++ "'")%string.
Proof.
  split.
  - intros H.
    destruct (convert_entity_cases d)
      as [(t & l & s & x & sc & _ & _ & _ & _ & _ & Hc)
         |(before & k & after & Ho & Hb & Hk & Hc)];
      rewrite Hc in H; [discriminate|].
    injection H as <-. now exists before, k, after.
  - intros (before & k & after & Ho & Hb & Hk & ->).
    destruct (convert_entity_cases d)
      as [(t & l & s & x & sc & Ht & Hl & Hs & He & Hsc & Hc)
         |(before' & k' & after' & Ho' & Hb' & Hk' & Hc)].
    + exfalso.
      assert (In k entity_key_order) as Hin
        by (rewrite Ho; apply in_or_app; right; now left).
      apply in_entity_key_order in Hin.
      destruct Hin as [-> | [-> | [-> | [-> | ->]]]]; congruence.
    + rewrite Hc.
      assert (k = k') as ->; [|reflexivity].
      apply (first_failure_unique (fun a => is_Some (d !! a))
               entity_key_order before before' after after' k k');
        auto; intros [v Hv]; congruence.
Qed.

(** ** What [extract_entities] asks of the model and gives back *)

Lemma for_each_first_failure {A B : Type} (body : A -> result B)
    (xs : list A) :
  Exists (fun x => exists e, body x = Raise e) xs ->
  exists x e, In x xs /\ body x = Raise e /\ for_each body xs = Raise e.
Proof.
  induction xs as [|x xs IH]; intros Hex; [inversion Hex|].
  cbn [for_each]. destruct (body x) as [y|e] eqn:Hx; cbn [bind].
  - inversion Hex as [? ? [e He] | ? ? Hrest]; subst; [congruence|].
    destruct (IH Hrest) as (x' & e & Hin & Hb & Hf).
    exists x', e. rewrite Hf. repeat split; auto. now right.
  - exists x, e. repeat split; auto. now left.
Qed.

Lemma load_trace_has_no_prediction (w : World) (self : GLiNERModel) :
  existsb is_prediction (snd (load w self)) = false.
Proof.
  unfold load. destruct (_loaded self); [reflexivity|].
  destruct (import_gliner2 w); [|reflexivity].
  destruct (from_pretrained w (model_name self)); reflexivity.
Qed.

(** The calls [extract_entities] makes: those of its [load], then at most one
    prediction, asked with the arguments it was given. *)
Lemma extract_entities_trace (w : World) (self : GLiNERModel)
    (text : string) (entity_types : list string) (threshold : float) :
  exists ev2,
    snd (extract_entities w self text entity_types threshold)
      = snd (load w self) ++ ev2 /\
    (ev2 = [] \/
     exists m r, ev2 = [EPredict m text entity_types threshold r]).
Proof.
  unfold extract_entities.
  destruct (_loaded self) eqn:Hl; cbn [negb].
  - rewrite (load_ready w self Hl). unfold extract_try.
    destruct (_model self) as [m|]; eexists; (split; [reflexivity|]); eauto.
  - destruct (load w self) as [[[u|e] s1] ev1];
      [|exists []; cbn; now rewrite List.app_nil_r; auto].
    unfold extract_try.
    destruct (_model s1) as [m|]; eexists; (split; [reflexivity|]); eauto.
Qed.

(** X7. When [extract_entities] returns, it has made exactly one prediction,
    on the model the handle holds after its [load] and with the text, the
    entity types and the threshold it was given; the handle is ready; and
    what it returns is, one for one and in order, the conversion of what the
    model predicted. *)
Theorem extract_entities_returns_converted (w : World)
    (self self' : GLiNERModel) (text : string) (entity_types : list string)
    (threshold : float) (results : list PyDict) (ev : list event) :
  extract_entities w self text entity_types threshold
    = (Return results, self', ev) ->
  exists m predicted,
    self' = snd (fst (load w self)) /\
    _loaded self' = true /\
    _model self' = Some m /\
    predict_entities w m text entity_types threshold = Return predicted /\
    Forall2 (fun d d' => convert_entity d = Return d') predicted results /\
    ev = snd (load w self)
         ++ [EPredict m text entity_types threshold (Return predicted)].
Proof.
  unfold extract_entities.
  assert (forall s1 ev1, _loaded s1 = true ->
            (let '(r, ev2) := extract_try w s1 text entity_types threshold in
             (r, s1, ev1 ++ ev2)) = (Return results, self', ev) ->
            exists m predicted,
              self' = s1 /\ _loaded self' = true /\ _model self' = Some m /\
              predict_entities w m text entity_types threshold
                = Return predicted /\
              Forall2 (fun d d' => convert_entity d = Return d')
                      predicted results /\
              ev = ev1 ++ [EPredict m text entity_types threshold
                             (Return predicted)]) as Htry.
  { intros s1 ev1 Hl. unfold extract_try.
    destruct (_model s1) as [m|] eqn:Hm; [|discriminate].
    destruct (predict_entities w m text entity_types threshold)
      as [predicted|e] eqn:Hp; cbn [bind]; [|discriminate].
    intros H. injection H as Hf <- <-.
    exists m, predicted. repeat split; auto.
    now apply for_each_Forall2. }
  destruct (_loaded self) eqn:Hl; cbn [negb].
  - rewrite (load_ready w self Hl). cbn [fst snd]. now apply Htry.
  - pose proof (load_cases w self) as Hc.
    destruct (load w self) as [[[u|e] s1] ev1]; [|discriminate].
    cbn [fst snd]. apply Htry.
    inversion Hc; subst; [congruence | reflexivity].
Qed.

Lemma extract_entities_returns_converted_witness :
  exists m predicted,
    fixtures.ready = snd (fst (load fixtures.world_ok fixtures.fresh)) /\
    _loaded fixtures.ready = true /\
    _model fixtures.ready = Some m /\
    predict_entities fixtures.world_ok m "Acme Corp" ["org"]
      main.threshold_default = Return predicted /\
    Forall2 (fun d d' => convert_entity d = Return d')
            predicted [fixtures.acme] /\
    [EImport (Return tt);
     EFromPretrained default_model_name (Return fixtures.the_model);
     EPredict fixtures.the_model "Acme Corp" ["org"] main.threshold_default
       (Return [fixtures.acme])]
    = snd (load fixtures.world_ok fixtures.fresh)
      ++ [EPredict m "Acme Corp" ["org"] main.threshold_default
            (Return predicted)].
Proof.
  apply (extract_entities_returns_converted fixtures.world_ok
           fixtures.fresh fixtures.ready "Acme Corp" ["org"]
           main.threshold_default [fixtures.acme]).
  reflexivity.
Defined.

(** X8. On a ready handle, when one of the predicted entities lacks one of
    the five keys, [extract_entities] returns nothing at all, whatever the
    other entities are: it raises the [KeyError] of a key that one of the
    entities lacks, after the one prediction, and leaves the handle as it
    is. *)
Theorem extract_entities_all_or_nothing (w : World) (self : GLiNERModel)
    (m : GLiNER) (text : string) (entity_types : list string)
    (threshold : float) (predicted : list PyDict) :
  _loaded self = true ->
  _model self = Some m ->
  predict_entities w m text entity_types threshold = Return predicted ->
  Exists (fun d => exists k, In k entity_key_order /\ d !! k = None)
         predicted ->
  exists d k,
    In d predicted /\ In k entity_key_order /\ d !! k = None /\
    extract_entities w self text entity_types threshold =
      (Raise (Exn KeyError ("'" ++ k ++ "'")%string), self,
       [EPredict m text entity_types threshold (Return predicted)]).
Proof.
  intros Hl Hm Hp Hex.
  assert (Exists (fun d => exists e, convert_entity d = Raise e) predicted)
    as Hfail.
  { apply Exists_exists in Hex. apply Exists_exists.
    destruct Hex as (d & Hin & k & Hk & Hnone). exists d. split; [exact Hin|].
    destruct (convert_entity_cases d)
      as [(t & l & s & x & sc & Ht & Hl' & Hs & He & Hsc & _)
         |(before & k' & after & _ & _ & _ & Hc)]; [|eauto].
    exfalso. apply in_entity_key_order in Hk.
    destruct Hk as [-> | [-> | [-> | [-> | ->]]]]; congruence. }
  destruct (for_each_first_failure convert_entity predicted Hfail)
    as (d & e & Hin & Hd & Hf).
  destruct (convert_entity_cases d)
    as [(t & l & s & x & sc & _ & _ & _ & _ & _ & Hc)
       |(before & k & after & Ho & _ & Hnone & Hc)];
    rewrite Hc in Hd; [discriminate|].
  injection Hd as <-.
  exists d, k. split; [exact Hin|]. split.
  { rewrite Ho. apply in_or_app. right. now left. }
  split; [exact Hnone|].
  unfold extract_entities. rewrite Hl. cbn [negb].
  unfold extract_try. rewrite Hm, Hp. cbn [bind]. now rewrite Hf.
Qed.

Lemma extract_entities_all_or_nothing_witness :
  exists d k,
    In d [fixtures.acme; service_fixtures.acme_without_score] /\
    In k entity_key_order /\ d !! k = None /\
    extract_entities service_fixtures.world_scoreless fixtures.ready
      "Acme Corp" ["org"] main.threshold_default =
      (Raise (Exn KeyError ("'" ++ k ++ "'")%string), fixtures.ready,
       [EPredict fixtures.the_model "Acme Corp" ["org"]
          main.threshold_default
          (Return [fixtures.acme; service_fixtures.acme_without_score])]).
Proof.
  apply (extract_entities_all_or_nothing service_fixtures.world_scoreless
           fixtures.ready fixtures.the_model "Acme Corp" ["org"]
           main.threshold_default
           [fixtures.acme; service_fixtures.acme_without_score]);
    try reflexivity.
  apply Exists_cons_tl, Exists_cons_hd. exists "score".
  split; [cbn; tauto | reflexivity].
Defined.

(** ** What reaches the model through the endpoints *)

Lemma no_prediction_args_ok (ev : list event) :
  existsb is_prediction ev = false -> Forall predict_args_ok ev.
Proof.
  induction ev as [|e ev IH]; cbn [existsb]; intros H; constructor.
  - destruct e; cbn in *; auto. discriminate.
  - apply IH. now apply orb_false_iff in H.
Qed.

Lemma lifespan_startup_args_ok (w : World) (g : option GLiNERModel) :
  Forall predict_args_ok (snd (main.lifespan_startup w g)).
Proof.
  unfold main.lifespan_startup. destruct (get_model g) as [m g1].
  pose proof (load_trace_has_no_prediction w m) as H.
  destruct (load w m) as [[r m'] ev]. now apply no_prediction_args_ok.
Qed.

Lemma serve_args_ok (w : main.ServiceWorld) (r : main.request)
    (g : option GLiNERModel) :
  Forall predict_args_ok (snd (main.serve w r g)).
Proof.
  destruct r as [| |b|]; cbn [main.serve].
  - unfold main.health_check. destruct (get_model g). cbn. constructor.
  - unfold main.model_info. destruct (get_model g). cbn. constructor.
  - unfold main.post_extract.
    pose proof (ExtractRequest_validate_spec b) as Hv.
    destruct (main.ExtractRequest_validate b) as [request|errors];
      [|cbn; constructor].
    destruct Hv as (Ht & Hl & Hth & Et & El & Eth).
    unfold main.extract_entities. destruct (get_model g) as [m g1].
    destruct (extract_entities_trace (main.world w) m (main.text request)
                (main.entity_types request) (main.threshold request))
      as (ev2 & He & Hev2).
    pose proof (load_trace_has_no_prediction (main.world w) m) as Hload.
    destruct (extract_entities (main.world w) m (main.text request)
                (main.entity_types request) (main.threshold request))
      as [[x m'] ev].
    cbn [snd] in *. subst ev. apply Forall_app. split.
    + now apply no_prediction_args_ok.
    + destruct Hev2 as [-> | (m0 & r0 & ->)]; constructor; [|constructor].
      cbn. rewrite Et, El, Eth. split; [exact Ht|]. split; [exact Hl|].
      destruct (main.body_threshold b) as [t|]; [now apply Hth|].
      split; reflexivity.
  - cbn. constructor.
Qed.

Lemma serve_all_args_ok (requests : list (main.ServiceWorld * main.request)) :
  forall g, Forall predict_args_ok (snd (main.serve_all requests g)).
Proof.
  induction requests as [|[w r] rest IH]; intros g; cbn [main.serve_all].
  - constructor.
  - pose proof (serve_args_ok w r g) as H1.
    destruct (main.serve w r g) as [[code g1] ev1].
    pose proof (IH g1) as H2.
    destruct (main.serve_all rest g1) as [[codes g2] ev2].
    cbn [snd] in *. apply Forall_app. now split.
Qed.

Lemma no_prediction_asked_by
    (requests : list (main.ServiceWorld * main.request)) (ev : list event) :
  existsb is_prediction ev = false -> Forall (asked_by requests) ev.
Proof.
  induction ev as [|e ev IH]; cbn [existsb]; intros H; constructor.
  - destruct e; cbn in *; auto. discriminate.
  - apply IH. now apply orb_false_iff in H.
Qed.

Lemma asked_by_cons (x : main.ServiceWorld * main.request)
    (requests : list (main.ServiceWorld * main.request)) (ev : list event) :
  Forall (asked_by requests) ev -> Forall (asked_by (x :: requests)) ev.
Proof.
  apply List.Forall_impl. intros e. destruct e; cbn; auto.
  intros (w & b & Hin & H). exists w, b. split; [now right | exact H].
Qed.

(** The predictions of one request are asked by that request. *)
Lemma serve_asked_by (w : main.ServiceWorld) (r : main.request)
    (g : option GLiNERModel) :
  Forall (asked_by [(w, r)]) (snd (main.serve w r g)).
Proof.
  destruct r as [| |b|]; cbn [main.serve].
  - unfold main.health_check. destruct (get_model g). cbn. constructor.
  - unfold main.model_info. destruct (get_model g). cbn. constructor.
  - unfold main.post_extract.
    pose proof (ExtractRequest_validate_spec b) as Hv.
    destruct (main.ExtractRequest_validate b) as [request|errors];
      [|cbn; constructor].
    destruct Hv as (_ & _ & _ & Et & El & Eth).
    unfold main.extract_entities. destruct (get_model g) as [m g1].
    destruct (extract_entities_trace (main.world w) m (main.text request)
                (main.entity_types request) (main.threshold request))
      as (ev2 & He & Hev2).
    pose proof (load_trace_has_no_prediction (main.world w) m) as Hload.
    destruct (extract_entities (main.world w) m (main.text request)
                (main.entity_types request) (main.threshold request))
      as [[x m'] ev].
    cbn [snd] in *. subst ev. apply Forall_app. split.
    + now apply no_prediction_asked_by.
    + destruct Hev2 as [-> | (m0 & r0 & ->)]; constructor; [|constructor].
      cbn. exists w, b. split; [now left|].
      rewrite Et, El, Eth. repeat split.
  - cbn. constructor.
Qed.

Lemma serve_all_asked_by
    (requests : list (main.ServiceWorld * main.request)) :
  forall g, Forall (asked_by requests) (snd (main.serve_all requests g)).
Proof.
  induction requests as [|[w r] rest IH]; intros g; cbn [main.serve_all].
  - constructor.
  - pose proof (serve_asked_by w r g) as H1.
    destruct (main.serve w r g) as [[code g1] ev1].
    pose proof (IH g1) as H2.
    destruct (main.serve_all rest g1) as [[codes g2] ev2].
    cbn [snd] in *. apply Forall_app. split.
    + revert H1. apply List.Forall_impl. intros e. destruct e; cbn; auto.
      intros (w' & b & [Hin | []] & H). exists w', b.
      split; [now left | exact H].
    + now apply asked_by_cons.
Qed.

(** X9. Over the life of a process, whatever bodies are posted, the model is
    only ever asked to predict on a text that is not empty, with a list of
    entity types that is not empty and a threshold within [0.0, 1.0]; and
    every prediction is asked by one of the bodies posted, with the text and
    the entity types of that body and with its threshold or, when it gives
    none, 0.3. *)
Theorem predictions_get_validated_arguments (startup : World)
    (requests : list (main.ServiceWorld * main.request)) :
  Forall predict_args_ok (snd (main.app startup requests)) /\
  Forall (asked_by requests) (snd (main.app startup requests)).
Proof.
  unfold main.app.
  pose proof (lifespan_startup_args_ok startup None) as H0.
  assert (existsb is_prediction (snd (main.lifespan_startup startup None))
          = false) as Hs.
  { unfold main.lifespan_startup. cbn [get_model].
    pose proof (load_trace_has_no_prediction startup
                  (__init__ default_model_name)) as H.
    now destruct (load startup (__init__ default_model_name)) as [[r m'] ev]. }
  destruct (main.lifespan_startup startup None) as [g0 ev0].
  pose proof (serve_all_args_ok requests g0) as H1.
  pose proof (serve_all_asked_by requests g0) as H2.
  destruct (main.serve_all requests g0) as [[codes g] ev].
  cbn [snd] in *. split; apply Forall_app; split; auto.
  now apply no_prediction_asked_by.
Qed.

(** X10. When the handle is not ready and its [load] fails during
    POST /extract, the answer is 500 with the detail "Extraction failed: "
    followed by the text of the [RuntimeError] that [load] raised; no
    prediction is asked, no model is constructed, and the process keeps the
    handle, still not ready, for the next request. *)
Theorem extract_reports_failed_load (w : World) (g : option GLiNERModel)
    (request : main.ExtractRequest) (e : exn) (self' : GLiNERModel)
    (ev : list event) :
  load w (fst (get_model g)) = (Raise e, self', ev) ->
  main.extract_entities w g request =
    (main.HTTPException 500 ("Extraction failed: " ++ exn_str e)%string,
     Some (fst (get_model g)), ev) /\
  _loaded (fst (get_model g)) = false /\
  exn_cls e = RuntimeError /\
  constructions ev = 0 /\
  existsb is_prediction ev = false.
Proof.
  intros Hload.
  pose proof (load_cases w (fst (get_model g))) as Hc.
  pose proof (load_trace_has_no_prediction w (fst (get_model g))) as Hp.
  rewrite Hload in Hc, Hp. cbn [snd] in Hp.
  inversion Hc as [| cause ev1 Hl Hcause Hk Hat Heq |]; subst.
  split; [|repeat split; auto].
  - unfold main.extract_entities, extract_entities.
    destruct (get_model g) as [m g1]. cbn [fst] in *.
    rewrite Hl. cbn [negb]. now rewrite Hload.
  - unfold load_except. now destruct (is_ImportError cause).
Qed.

Lemma extract_reports_failed_load_witness :
  main.extract_entities fixtures.world_offline None fixtures.acme_request =
    (main.HTTPException 500
       ("Extraction failed: " ++
        exn_str (Exn RuntimeError
                   "Failed to load GLiNER2 model: connection refused"))%string,
     Some (fst (get_model None)),
     [EImport (Return tt);
      EFromPretrained default_model_name
        (Raise (Exn OtherError "connection refused"))]) /\
  _loaded (fst (get_model None)) = false /\
  exn_cls (Exn RuntimeError
             "Failed to load GLiNER2 model: connection refused")
    = RuntimeError /\
  constructions
    [EImport (Return tt);
     EFromPretrained default_model_name
       (Raise (Exn OtherError "connection refused"))] = 0 /\
  existsb is_prediction
    [EImport (Return tt);
     EFromPretrained default_model_name
       (Raise (Exn OtherError "connection refused"))] = false.
Proof.
  apply (extract_reports_failed_load fixtures.world_offline None
           fixtures.acme_request _ fixtures.fresh).
  reflexivity.
Defined.

(** X11. The endpoint function of POST /extract never answers anything but
    200 or 500: every exception, be it from loading, from the prediction,
    from a missing key or from pydantic refusing an entity, becomes an
    [HTTPException] with status 500 whose detail is "Extraction failed: "
    followed by the text of that exception; and in every case the process
    holds a handle afterwards. *)
Theorem extract_failures_are_500 (w : World) (g g' : option GLiNERModel)
    (request : main.ExtractRequest) (code : Z) (detail : string)
    (ev : list event) :
  main.extract_entities w g request
    = (main.HTTPException code detail, g', ev) ->
  code = 500%Z /\
  g' = Some (snd (fst (load w (fst (get_model g))))) /\
  exists e,
    detail = ("Extraction failed: " ++ exn_str e)%string /\
    (fst (fst (extract_entities w (fst (get_model g)) (main.text request)
                 (main.entity_types request) (main.threshold request)))
       = Raise e \/
     exists results d,
       fst (fst (extract_entities w (fst (get_model g)) (main.text request)
                   (main.entity_types request) (main.threshold request)))
         = Return results /\
       In d results /\
       main.Entity_init w d = Raise e).
Proof.
  unfold main.extract_entities.
  destruct (get_model g) as [m g1]. cbn [fst].
  destruct (extract_entities_handle w m (main.text request)
              (main.entity_types request) (main.threshold request))
    as (ev2 & Hs & _ & _).
  destruct (extract_entities w m (main.text request)
              (main.entity_types request) (main.threshold request))
    as [[[results|e] m'] ev'] eqn:Hx; cbn [bind fst snd] in *.
  - unfold main.build_response.
    destruct (for_each (main.Entity_init w) results) as [es|e] eqn:Hes;
      cbn [bind]; [discriminate|].
    intros H. injection H as <- <- <- <-.
    split; [reflexivity|]. split; [now rewrite Hs|].
    exists e. split; [reflexivity|]. right.
    assert (Exists (fun d => exists e', main.Entity_init w d = Raise e')
                   results) as Hex.
    { clear - Hes. revert e Hes.
      induction results as [|d ds IH]; intros e Hes; cbn in Hes;
        [discriminate|].
      destruct (main.Entity_init w d) as [y|e'] eqn:Hd; cbn in Hes.
      - destruct (for_each (main.Entity_init w) ds) as [ys|e''] eqn:Hds;
          cbn in Hes; [discriminate|].
        apply Exists_cons_tl. eapply IH; eauto.
      - apply Exists_cons_hd. eauto. }
    destruct (for_each_first_failure _ _ Hex) as (d & e' & Hin & Hd & Hf).
    rewrite Hf in Hes. injection Hes as ->.
    exists results, d. auto.
  - intros H. injection H as <- <- <- <-.
    split; [reflexivity|]. split; [now rewrite Hs|].
    exists e. split; [reflexivity|]. now left.
Qed.

Lemma extract_failures_are_500_witness :
  500%Z = 500%Z /\
  Some fixtures.ready
    = Some (snd (fst (load service_fixtures.world_scoreless
                        (fst (get_model (Some fixtures.ready)))))) /\
  exists e,
    "Extraction failed: 'score'"
      = ("Extraction failed: " ++ exn_str e)%string /\
    (fst (fst (extract_entities service_fixtures.world_scoreless
                 (fst (get_model (Some fixtures.ready)))
                 (main.text fixtures.acme_request)
                 (main.entity_types fixtures.acme_request)
                 (main.threshold fixtures.acme_request)))
       = Raise e \/
     exists results d,
       fst (fst (extract_entities service_fixtures.world_scoreless
                   (fst (get_model (Some fixtures.ready)))
                   (main.text fixtures.acme_request)
                   (main.entity_types fixtures.acme_request)
                   (main.threshold fixtures.acme_request)))
         = Return results /\
       In d results /\
       main.Entity_init service_fixtures.world_scoreless d = Raise e).
Proof.
  apply (extract_failures_are_500 service_fixtures.world_scoreless
           (Some fixtures.ready) (Some fixtures.ready)
           fixtures.acme_request 500 "Extraction failed: 'score'"
           [EPredict fixtures.the_model "Acme Corp" ["org"]
              main.threshold_default
              (Return [fixtures.acme; service_fixtures.acme_without_score])]).
  reflexivity.
Defined.

(** ** Front matter *)

Import build_docs.

Lemma startswith_app (p r : str) : startswith (p ++ r) p = true.
Proof.
  induction p as [|c p IH]; [now destruct r|].
  cbn. now rewrite N.eqb_refl, IH.
Qed.

Lemma startswith_true (s p : str) :
  startswith s p = true -> s = p ++ skipn (length p) s.
Proof.
  revert s. induction p as [|c p IH]; intros s H; [reflexivity|].
  destruct s as [|x s]; [discriminate|]. cbn in H.
  apply andb_true_iff in H. destruct H as [Hx Hs].
  apply N.eqb_eq in Hx. subst x. cbn. f_equal. now apply IH.
Qed.

Lemma cut_unfold (sep s : str) :
  cut sep s =
  if startswith s sep then Some ([], skipn (length sep) s)
  else
    match s with
    | [] => None
    | c :: rest =>
        match cut sep rest with
        | Some (before, after) => Some (c :: before, after)
        | None => None
        end
    end.
Proof. now destruct s. Qed.

Lemma cut_Some (sep s a b : str) :
  cut sep s = Some (a, b) -> s = a ++ sep ++ b.
Proof.
  revert a b. induction s as [|c s IH]; intros a b H; rewrite cut_unfold in H.
  - destruct (startswith [] sep) eqn:Hs; [|discriminate].
    injection H as <- <-. now apply startswith_true.
  - destruct (startswith (c :: s) sep) eqn:Hs.
    + injection H as <- <-. now apply startswith_true.
    + destruct (cut sep s) as [[a' b']|]; [|discriminate].
      injection H as <- <-. cbn. f_equal. now apply IH.
Qed.

Lemma cut_None (sep s : str) : cut sep s = None -> ~ occurs sep s.
Proof.
  induction s as [|c s IH]; intros H (a & b & E); rewrite cut_unfold in H.
  - destruct a; [|discriminate]. cbn in E.
    destruct sep; [|discriminate]. discriminate.
  - destruct (startswith (c :: s) sep) eqn:Hs; [discriminate|].
    destruct a as [|x a]; cbn in E.
    + rewrite E, startswith_app in Hs. discriminate.
    + injection E as -> ->.
      destruct (cut sep (a ++ sep ++ b)) as [[a' b']|] eqn:Hc;
        [discriminate|].
      apply IH; [reflexivity | now exists a, b].
Qed.

(** The marker is found where the front matter ends when it does not begin
    any earlier. *)
Lemma cut_marker_leftmost (fm body : str) :
  ~ occurs marker (fm ++ [45; 45]%N) ->
  cut marker (fm ++ marker ++ body) = Some (fm, body).
Proof.
  induction fm as [|c fm IH]; intros Hno; rewrite cut_unfold.
  - cbn [app]. now rewrite startswith_app.
  - destruct (startswith ((c :: fm) ++ marker ++ body) marker) eqn:Hs.
    + exfalso. apply Hno.
      destruct fm as [|c2 [|c3 fm]]; cbn in Hs;
        repeat (apply andb_true_iff in Hs; destruct Hs as [?%N.eqb_eq Hs]);
        subst.
      * now exists [], [].
      * now exists [], [45%N].
      * now exists [], (fm ++ [45; 45]%N).
    + cbn [app]. rewrite IH; [reflexivity|].
      intros (a & b & E). apply Hno. exists (c :: a), b. cbn. now rewrite E.
Qed.

Lemma lstrip_length (s : str) : length (lstrip s) <= length s.
Proof.
  induction s as [|c s IH]; cbn; [lia|]. destruct (isspace c); cbn; lia.
Qed.

Lemma lstrip_head (s : str) (c : N) (rest : str) :
  lstrip s = c :: rest -> isspace c = false.
Proof.
  induction s as [|x s IH]; cbn; [discriminate|].
  destruct (isspace x) eqn:Hx; [exact IH|]. intros [= -> _]. exact Hx.
Qed.

Lemma lstrip_suffix (s : str) : exists t, s = t ++ lstrip s.
Proof.
  induction s as [|x s (t & IH)]; cbn; [now exists []|].
  destruct (isspace x); [|now exists []].
  exists (x :: t). cbn. now f_equal.
Qed.

Lemma strip_length (s : str) : length (strip s) <= length s.
Proof.
  unfold strip, rstrip. rewrite List.length_rev.
  pose proof (lstrip_length (rev (lstrip s))) as H1.
  rewrite List.length_rev in H1.
  pose proof (lstrip_length s). lia.
Qed.

(** A stripped text has no whitespace at either end. *)
Lemma strip_ends (s : str) :
  (forall c rest, strip s = c :: rest -> isspace c = false) /\
  (forall init c, strip s = init ++ [c] -> isspace c = false).
Proof.
  unfold strip, rstrip. split.
  - intros c rest H.
    destruct (lstrip_suffix (rev (lstrip s))) as (t & Ht).
    apply (f_equal (@rev N)) in Ht.
    rewrite List.rev_involutive, List.rev_app_distr, H in Ht.
    cbn in Ht. eapply lstrip_head; eauto.
  - intros init c H. apply (f_equal (@rev N)) in H.
    rewrite List.rev_involutive, List.rev_app_distr in H. cbn in H.
    eapply lstrip_head; eauto.
Qed.

(** The two ways [strip_yaml_frontmatter] can go. *)
Lemma strip_yaml_frontmatter_cases (content : str) :
  (strip_yaml_frontmatter content = Return content /\
   ~ has_frontmatter content) \/
  (exists fm body,
      content = marker ++ fm ++ marker ++ body /\
      strip_yaml_frontmatter content = Return (strip body)).
Proof.
  unfold strip_yaml_frontmatter.
  destruct (startswith content marker) eqn:Hs.
  - pose proof (startswith_true _ _ Hs) as Hcont.
    set (rest := skipn (length marker) content) in Hcont.
    assert (split_on marker 2 content = [] :: split_on marker 1 rest)
      as Hsplit.
    { cbn [split_on]. now rewrite (cut_unfold marker content), Hs. }
    change (split content marker 2) with (Return (split_on marker 2 content)).
    cbn [bind]. rewrite Hsplit. cbn [split_on].
    destruct (cut marker rest) as [[fm body]|] eqn:Hc.
    + right. exists fm, body. split; [|reflexivity].
      apply cut_Some in Hc. now rewrite Hcont, Hc.
    + left. split; [reflexivity|].
      intros (fm & body & E). apply (cut_None _ _ Hc). exists fm, body.
      rewrite Hcont in E. now apply List.app_inv_head in E.
  - left. split; [reflexivity|].
    intros (fm & body & E). rewrite E, startswith_app in Hs. discriminate.
Qed.

(** X12. [strip_yaml_frontmatter] never raises and returns its argument
    unchanged exactly when the text is not an opening "---", a front matter
    and a closing "---" followed by a body: a text that does not begin with
    the marker, or whose opening marker is never closed, is kept whole. *)
Theorem strip_yaml_frontmatter_unchanged_iff (content : str) :
  (exists out, strip_yaml_frontmatter content = Return out) /\
  (strip_yaml_frontmatter content = Return content <->
   ~ has_frontmatter content).
Proof.
  destruct (strip_yaml_frontmatter_cases content)
    as [[H Hno] | (fm & body & E & H)].
  - split; [eauto|]. now split.
  - split; [eauto|]. split.
    + rewrite H. intros [= Heq]. exfalso.
      pose proof (strip_length body) as Hlen.
      rewrite Heq, E in Hlen. rewrite !List.length_app in Hlen. cbn in Hlen.
      lia.
    + intros Hno. elim Hno. now exists fm, body.
Qed.

(** X13. For a front matter in which the marker does not begin (not even
    with its last dashes taken from the closing marker), the text made of
    "---", the front matter, "---" and a body gives back the body, stripped,
    whatever the body is: markers inside the body are kept. *)
Theorem strip_yaml_frontmatter_gives_body (fm body : str) :
  ~ occurs marker (fm ++ [45; 45]%N) ->
  strip_yaml_frontmatter (marker ++ fm ++ marker ++ body)
    = Return (strip body).
Proof.
  intros Hno. unfold strip_yaml_frontmatter.
  rewrite startswith_app.
  change (split (marker ++ fm ++ marker ++ body) marker 2)
    with (Return (split_on marker 2 (marker ++ fm ++ marker ++ body))).
  cbn [bind split_on].
  rewrite (cut_unfold marker (marker ++ fm ++ marker ++ body)).
  rewrite startswith_app.
  change (skipn (length marker) (marker ++ fm ++ marker ++ body))
    with (fm ++ marker ++ body).
  now rewrite (cut_marker_leftmost fm body Hno).
Qed.

Lemma strip_yaml_frontmatter_gives_body_witness :
  strip_yaml_frontmatter
    (marker ++ ([10] ++ literal "tags: - a" ++ [10])%N ++ marker
     ++ ([10] ++ literal "Title" ++ [10] ++ marker ++ [10]
         ++ literal "text" ++ [10])%N)
  = Return (strip ([10] ++ literal "Title" ++ [10] ++ marker ++ [10]
                   ++ literal "text" ++ [10])%N).
Proof.
  apply (strip_yaml_frontmatter_gives_body
           ([10] ++ literal "tags: - a" ++ [10])%N).
  apply cut_None. reflexivity.
Defined.

(** X14. What [strip_yaml_frontmatter] returns is never longer than its
    argument; and when the text has a front matter, the result is at least
    six code points shorter and has no whitespace at its beginning nor at
    its end. *)
Theorem strip_yaml_frontmatter_shrinks (content out : str) :
  strip_yaml_frontmatter content = Return out ->
  length out <= length content /\
  (has_frontmatter content ->
   length out + 6 <= length content /\
   (forall c rest, out = c :: rest -> isspace c = false) /\
   (forall init c, out = init ++ [c] -> isspace c = false)).
Proof.
  intros Hout.
  destruct (strip_yaml_frontmatter_cases content)
    as [[H Hno] | (fm & body & E & H)];
    rewrite H in Hout; injection Hout as <-.
  - split; [lia | contradiction].
  - pose proof (strip_length body) as Hlen.
    assert (length (strip body) + 6 <= length content) as H6.
    { rewrite E, !List.length_app. cbn. lia. }
    split; [lia|]. intros _. split; [exact H6|]. apply strip_ends.
Qed.

Lemma strip_yaml_frontmatter_shrinks_witness :
  length (literal "body") <=
    length (marker ++ literal "a: 1" ++ marker ++ literal "  body ") /\
  (has_frontmatter (marker ++ literal "a: 1" ++ marker ++ literal "  body ")
   ->
   length (literal "body") + 6 <=
     length (marker ++ literal "a: 1" ++ marker ++ literal "  body ") /\
   (forall c rest, literal "body" = c :: rest -> isspace c = false) /\
   (forall init c, literal "body" = init ++ [c] -> isspace c = false)).
Proof.
  apply (strip_yaml_frontmatter_shrinks
           (marker ++ literal "a: 1" ++ marker ++ literal "  body ")
           (literal "body")).
  reflexivity.
Defined.

(** ** A warmup that fails *)




